(** * Grad-CAM (gradcam.py): a shallow embedding and its properties

    The development follows [src/gradcam.py]:

    - [CamExtractor] runs the body's children in order, hooks the output of
      the child at position [target_layer], flattens the last output and
      calls the head;
    - [GradCam.__init__] separates body and head;
    - [GradCam.generate_cam] seeds a one-hot gradient, runs the backward
      pass, and turns the hooked gradient and activation into a heat map.

    Numbers are IEEE-754 binary floating-point values, computed with the
    operations of the standard library's [SpecFloat] at the precision numpy
    uses at each step (binary32 for the tensors, binary64 for the final
    division by 255).  Python exceptions are values of [exn]; the only
    mutable field of the source, [CamExtractor.gradients], is threaded as
    state. *)

From Stdlib Require Import String ZArith List Bool Lia PeanoNat.
From Stdlib Require Import Floats.SpecFloat.
Import ListNotations.

Local Open Scope Z_scope.

(* ------------------------------------------------------------------ *)
(** ** Floating-point numbers *)

(** numpy's [float32]: every tensor of the computation has this dtype. *)
Module F32.
Definition prec : Z := 24.
Definition emax : Z := 128.
Definition t : Type := spec_float.

Definition add : t -> t -> t := SFadd prec emax.
Definition sub : t -> t -> t := SFsub prec emax.
Definition mul : t -> t -> t := SFmul prec emax.
Definition div : t -> t -> t := SFdiv prec emax.
Definition opp : t -> t := SFopp.
Definition leb : t -> t -> bool := SFleb.
Definition of_Z (n : Z) : t := binary_normalize prec emax n 0 false.
Definition of_nat (n : nat) : t := of_Z (Z.of_nat n).
Definition zero : t := S754_zero false.
Definition one : t := of_Z 1.

Definition is_nan (x : t) : bool :=
  match x with S754_nan => true | _ => false end.

(** Rounding toward zero to an integer, as the C conversion of a float to
    an integer type does; [None] for NaN and the infinities. *)
Definition trunc (x : t) : option Z :=
  match x with
  | S754_zero _ => Some 0
  | S754_finite s m e =>
      let a := match e with
               | Z0 => Zpos m
               | Zpos p => Z.shiftl (Zpos m) e
               | Zneg p => Z.shiftr (Zpos m) (Zpos p)
               end in
      Some (if s then - a else a)
  | _ => None
  end.
End F32.

(** numpy's [float64]: the dtype of [uint8_array / 255]. *)
Module F64.
Definition prec : Z := 53.
Definition emax : Z := 1024.
Definition t : Type := spec_float.

Definition div : t -> t -> t := SFdiv prec emax.
Definition leb : t -> t -> bool := SFleb.
Definition of_Z (n : Z) : t := binary_normalize prec emax n 0 false.
Definition zero : t := S754_zero false.
Definition one : t := of_Z 1.
End F64.

(* ------------------------------------------------------------------ *)
(** ** Exceptions and results *)

(** The Python exceptions the code can raise.  [Unmodelled] marks the two
    places where numpy and PIL would go on with arrays of a rank this
    development does not follow (an activation of rank above 4). *)
Inductive exn : Type :=
| AttributeError_None (attr : string)
    (* 'NoneType' object has no attribute <attr> *)
| IndexError (index : Z) (size : nat)
    (* index <index> is out of bounds for a dimension of size <size> *)
| IndexError_rank (ndim : nat)
    (* too many indices for an array of <ndim> dimensions *)
| AxisError (axis ndim : nat)
    (* axis <axis> is out of bounds for array of dimension <ndim> *)
| RuntimeError (msg : string)
| ValueError (msg : string)
| Unmodelled (what : string).

Inductive Result (A : Type) : Type :=
| Ok (a : A)
| Err (e : exn).
Arguments Ok {A} a.
Arguments Err {A} e.

Definition rbind {A B} (r : Result A) (k : A -> Result B) : Result B :=
  match r with
  | Ok a => k a
  | Err e => Err e
  end.

Declare Scope result_scope.
Delimit Scope result_scope with result.
Notation "x <- c ;; k" := (rbind c (fun x => k))
  (at level 61, c at next level, right associativity) : result_scope.
Notation "' p <- c ;; k" := (rbind c (fun x => let 'p := x in k))
  (at level 61, p pattern, c at next level, right associativity) : result_scope.

(* ------------------------------------------------------------------ *)
(** ** Arrays *)

(** A torch tensor or numpy array: its shape and its elements in row-major
    order. *)
Record ndarray (A : Type) : Type := mk_ndarray {
  shape : list nat;
  data : list A
}.
Arguments mk_ndarray {A} shape data.
Arguments shape {A} n.
Arguments data {A} n.

Definition Tensor : Type := ndarray F32.t.

Definition numel (s : list nat) : nat := fold_right Nat.mul 1%nat s.

(** An array holds as many elements as its shape says. *)
Definition well_shaped {A} (a : ndarray A) : Prop :=
  length (data a) = numel (shape a).

(** Python's [enumerate]. *)
Definition enumerate {A} (l : list A) : list (nat * A) :=
  combine (seq 0 (length l)) l.

(** [a.shape[i]] on the shape tuple. *)
Definition shape_at (s : list nat) (i : nat) : Result nat :=
  match nth_error s i with
  | Some d => Ok d
  | None => Err (IndexError (Z.of_nat i) (length s))
  end.

(** [s[-1]] on a shape tuple. *)
Definition shape_last (s : list nat) : Result nat :=
  match s with
  | [] => Err (IndexError (-1) 0)
  | _ => Ok (last s 0%nat)
  end.

(** [a[i]] for a non-negative [i]: the [i]-th slice along the first axis. *)
Definition index0 {A} (a : ndarray A) (i : nat) : Result (ndarray A) :=
  match shape a with
  | [] => Err (IndexError_rank 0)
  | d :: rest =>
      if (i <? d)%nat
      then Ok (mk_ndarray rest
                 (firstn (numel rest) (skipn (i * numel rest) (data a))))
      else Err (IndexError (Z.of_nat i) d)
  end.

Definition map_array {A B} (f : A -> B) (a : ndarray A) : ndarray B :=
  mk_ndarray (shape a) (map f (data a)).

(** Elementwise combination of two arrays of the same shape. *)
Fixpoint zip_with {A B C} (f : A -> B -> C) (l : list A) (m : list B) : list C :=
  match l, m with
  | x :: l', y :: m' => f x y :: zip_with f l' m'
  | _, _ => []
  end.

(* ------------------------------------------------------------------ *)
(** ** torch: modules and reverse-mode differentiation *)

(** A label tensor, [torch.tensor([target_class])]: 64-bit integers. *)
Definition LongTensor : Type := ndarray Z.

(** [torch.tensor([c])] raises when [c] does not fit a 64-bit integer. *)
Definition torch_tensor1 (c : Z) : Result LongTensor :=
  if (- 2 ^ 63 <=? c) && (c <? 2 ^ 63)
  then Ok (mk_ndarray [1%nat] [c])
  else Err (RuntimeError "Overflow when unpacking long").

(** A [torch.nn.Module] as the code uses one: it is called on a tensor
    ([module(x)]) or on a tensor and a label ([head(x, target)]), it has a
    training flag that [eval()] clears, and the autograd engine can pull a
    gradient of its output back to its input.  The functions themselves are
    the network's and are left open; the two shape fields are the engine's
    contract that a gradient has the shape of the tensor it belongs to. *)
Record Module : Type := mk_Module {
  training : bool;
  call1 : bool -> Tensor -> Tensor;
  call2 : bool -> Tensor -> LongTensor -> Tensor;
  vjp1 : bool -> Tensor -> Tensor -> Tensor;
  vjp2 : bool -> Tensor -> LongTensor -> Tensor -> Tensor;
  vjp1_shape : forall tr x g, shape (vjp1 tr x g) = shape x;
  vjp2_shape : forall tr x l g, shape (vjp2 tr x l g) = shape x
}.

(** [module.eval()]: the same module with its training flag cleared. *)
Definition eval (m : Module) : Module :=
  mk_Module false (call1 m) (call2 m) (vjp1 m) (vjp2 m)
    (vjp1_shape m) (vjp2_shape m).

(** The graph the engine records behind a tensor.  The extractor only ever
    builds a chain: each node is either the backward function of one
    operation, or the hook [register_hook(self.save_gradient)] left on the
    tensor at that point.  The head of the list is the latest operation. *)
Inductive Node : Type :=
| BackFn (f : Tensor -> Tensor)
| Hook.

(** A tensor together with its recorded history.  Every tensor of a query
    is taken to be part of the differentiated graph, as it is when the
    image requires a gradient or an earlier layer has parameters. *)
Record Var : Type := mk_Var {
  value : Tensor;
  history : list Node
}.

(** [module(x)] *)
Definition apply1 (m : Module) (x : Var) : Var :=
  mk_Var (call1 m (training m) (value x))
         (BackFn (vjp1 m (training m) (value x)) :: history x).

(** [module(x, target)] *)
Definition apply2 (m : Module) (x : Var) (target : LongTensor) : Var :=
  mk_Var (call2 m (training m) (value x) target)
         (BackFn (vjp2 m (training m) (value x) target) :: history x).

(** [x.register_hook(hook)] *)
Definition register_hook (x : Var) : Var :=
  mk_Var (value x) (Hook :: history x).

(** [x.view(x.size(0), -1)]: the same elements as a matrix with
    [x.size(0)] rows; its backward function gives the gradient the shape of
    [x] again. *)
Definition view_flat (x : Var) : Result Var :=
  match shape (value x) with
  | [] => Err (IndexError 0 0)
  | O :: _ =>
      Err (RuntimeError "cannot reshape tensor of 0 elements into shape [0, -1]")
  | d :: rest =>
      Ok (mk_Var (mk_ndarray [d; numel rest] (data (value x)))
                 (BackFn (fun g => mk_ndarray (shape (value x)) (data g))
                    :: history x))
  end.

(** The engine walks the history from the output back, handing the running
    gradient to each backward function; at a hook it calls the hook with
    the gradient that has arrived there.  [hook] is the hook's effect on the
    state [S]. *)
Fixpoint run_backward {S} (hook : Tensor -> S -> S)
    (h : list Node) (g : Tensor) (s : S) : S :=
  match h with
  | [] => s
  | BackFn f :: h' => run_backward hook h' (f g) s
  | Hook :: h' => run_backward hook h' g (hook g s)
  end.

(** [y.backward(gradient=g)]: the seed must have the shape of [y]. *)
Definition backward {S} (hook : Tensor -> S -> S)
    (y : Var) (g : Tensor) (s : S) : Result unit * S :=
  if list_eq_dec Nat.eq_dec (shape g) (shape (value y))
  then (Ok tt, run_backward hook (history y) g s)
  else (Err (RuntimeError "Mismatch in shape: grad_output and output"), s).

(** [torch.FloatTensor(1, n).zero_()] *)
Definition zeros_1xn (n : nat) : Tensor :=
  mk_ndarray [1%nat; n] (repeat F32.zero n).

(** Python's index normalisation for a dimension of size [n]: an index in
    [-n, n) is taken from the end when negative, any other index raises. *)
Definition normalize_index (i : Z) (n : nat) : Result nat :=
  if (0 <=? i) && (i <? Z.of_nat n) then Ok (Z.to_nat i)
  else if (- Z.of_nat n <=? i) && (i <? 0) then Ok (Z.to_nat (Z.of_nat n + i))
  else Err (IndexError i n).

Fixpoint set_nth {A} (l : list A) (i : nat) (v : A) : list A :=
  match l, i with
  | [], _ => []
  | _ :: l', O => v :: l'
  | x :: l', S i' => x :: set_nth l' i' v
  end.

(** [t[0][i] = v] on a tensor of shape (1, n). *)
Definition setitem_row0 (t : Tensor) (i : Z) (v : F32.t) : Result Tensor :=
  match shape t with
  | [] => Err (IndexError_rank 0)
  | O :: _ => Err (IndexError 0 0)
  | [_] => Err (IndexError_rank 0)
  | _ :: n :: _ =>
      k <- normalize_index i n ;;
      Ok (mk_ndarray (shape t) (set_nth (data t) k v))
  end%result.

(** The network handed to [GradCam]: the code only asks for its children
    and switches it to evaluation mode. *)
Record Model : Type := Sequential {
  children : list Module
}.

(** [model.eval()] clears the training flag of every sub-module. *)
Definition eval_model (m : Model) : Model :=
  Sequential (map eval (children m)).

(** [obj.data] where [obj] may be [None]. *)
Definition dot_data {A} (obj : option A) : Result A :=
  match obj with
  | Some a => Ok a
  | None => Err (AttributeError_None "data")
  end.

(* ------------------------------------------------------------------ *)
(** ** numpy *)

Module np.
(** [-a] *)
Definition negative (a : Tensor) : Tensor := map_array F32.opp a.

(** [add.reduce] over a run of elements: it starts from the first one, and
    is 0 on an empty run.  The elements are added in index order. *)
Definition sum (l : list F32.t) : F32.t :=
  match l with
  | [] => F32.zero
  | x :: l' => fold_left F32.add l' x
  end.

(** The first [n] consecutive runs of [k] elements. *)
Fixpoint chunks {A} (k n : nat) (l : list A) : list (list A) :=
  match n with
  | O => []
  | S n' => firstn k l :: chunks k n' (skipn k l)
  end.

(** [np.mean(a, axis=(1, 2))] *)
Definition mean_axis12 (a : Tensor) : Result Tensor :=
  match shape a with
  | [] => Err (AxisError 1 0)
  | [_] => Err (AxisError 1 1)
  | [_; _] => Err (AxisError 2 2)
  | [c; h; w] =>
      Ok (mk_ndarray [c]
            (map (fun ch => F32.div (sum ch) (F32.of_nat (h * w)))
                 (chunks (h * w) c (data a))))
  | _ => Err (Unmodelled "np.mean(axis=(1, 2)) of more than 3 dimensions")
  end.

(** [np.ones(s, dtype=np.float32)] *)
Definition ones (s : list nat) : Tensor :=
  mk_ndarray s (repeat F32.one (numel s)).

(** [a[i, :, :]] *)
Definition getitem_i_all_all (a : Tensor) (i : nat) : Result Tensor :=
  if (length (shape a) <? 3)%nat
  then Err (IndexError_rank (length (shape a)))
  else index0 a i.

(** [w * a] for a scalar [w] *)
Definition scalar_mul (w : F32.t) (a : Tensor) : Tensor :=
  map_array (F32.mul w) a.

(** [cam += b] for [b] of the shape of [cam] *)
Definition iadd (cam b : Tensor) : Tensor :=
  mk_ndarray (shape cam) (zip_with F32.add (data cam) (data b)).

(** numpy's [maximum] and [minimum] on two floats: a NaN on the left is
    kept, a NaN on the right wins every comparison by failing it. *)
Definition fmaximum (x y : F32.t) : F32.t :=
  if F32.leb y x || F32.is_nan x then x else y.
Definition fminimum (x y : F32.t) : F32.t :=
  if F32.leb x y || F32.is_nan x then x else y.

(** [np.maximum(a, 0)] *)
Definition maximum0 (a : Tensor) : Tensor :=
  map_array (fun x => fmaximum x F32.zero) a.

(** [np.min(a)] and [np.max(a)] *)
Definition amin (a : Tensor) : Result F32.t :=
  match data a with
  | [] => Err (ValueError
      "zero-size array to reduction operation minimum which has no identity")
  | x :: l => Ok (fold_left fminimum l x)
  end.
Definition amax (a : Tensor) : Result F32.t :=
  match data a with
  | [] => Err (ValueError
      "zero-size array to reduction operation maximum which has no identity")
  | x :: l => Ok (fold_left fmaximum l x)
  end.

Section Cast.
(** What the machine's conversion gives where C leaves the conversion
    of a float to an 8-bit unsigned integer undefined (NaN, infinities,
    values outside 0..255). *)
Variable cast_undefined : F32.t -> Z.

(** One element of [np.uint8(a)] for a [float32] array [a]: the value
    rounded toward zero when that fits a byte. *)
Definition uint8_of_float (x : F32.t) : Z :=
  match F32.trunc x with
  | Some z => if (0 <=? z) && (z <=? 255) then z
              else cast_undefined x mod 256
  | None => cast_undefined x mod 256
  end.

(** [np.uint8(a)] *)
Definition uint8 (a : Tensor) : ndarray Z := map_array uint8_of_float a.
End Cast.

(** [a / 255] for a [uint8] array [a]: a [float64] array. *)
Definition div255 (a : ndarray Z) : ndarray F64.t :=
  map_array (fun k => F64.div (F64.of_Z k) (F64.of_Z 255)) a.
End np.

(* ------------------------------------------------------------------ *)
(** ** PIL *)

Module Image.
(** An 8-bit single-band image (mode L): its size and its pixels, row by
    row. *)
Record t : Type := mk {
  width : nat;
  height : nat;
  pixels : list Z
}.

(** [Image.fromarray(a)] for a [uint8] array of shape (rows, columns) *)
Definition fromarray (a : ndarray Z) : Result t :=
  match shape a with
  | [h; w] => Ok (mk w h (data a))
  | _ => Err (Unmodelled "Image.fromarray of an array that is not 2-D")
  end.

Definition clip8 (z : Z) : Z := Z.max 0 (Z.min 255 z).

Section Resize.
(** The antialiasing filter: the unclipped value it computes for the
    pixel (x, y) of an output of the given width and height. *)
Variable antialias : t -> nat -> nat -> nat -> nat -> Z.

(** [im.resize((w, h), Image.ANTIALIAS)]: the size is (width, height).
    An image that already has that size is copied; every resampled
    pixel is clipped to a byte. *)
Definition resize (im : t) (size : nat * nat) : Result t :=
  let (w, h) := size in
  if ((w =? width im) && (h =? height im))%nat then Ok im
  else if ((w <? 1) || (h <? 1))%nat
  then Err (ValueError "height and width must be > 0")
  else Ok (mk w h
             (flat_map
                (fun y => map (fun x => clip8 (antialias im w h x y))
                              (seq 0 w))
                (seq 0 h))).
End Resize.

(** [np.uint8(im)]: an array of shape (height, width). *)
Definition toarray (im : t) : ndarray Z :=
  mk_ndarray [height im; width im] (pixels im).
End Image.

(* ------------------------------------------------------------------ *)
(** ** Methods that change their object *)

(** A method of an object of type [S] that may raise: it returns a result
    or an exception, and the object as it has left it. *)
Definition Py (S A : Type) : Type := S -> Result A * S.

Definition ret {S A} (a : A) : Py S A := fun s => (Ok a, s).

Definition bind {S A B} (c : Py S A) (k : A -> Py S B) : Py S B :=
  fun s => match c s with
           | (Ok a, s') => k a s'
           | (Err e, s') => (Err e, s')
           end.

Definition lift {S A} (r : Result A) : Py S A := fun s => (r, s).

Definition get {S} : Py S S := fun s => (Ok s, s).

Declare Scope py_scope.
Delimit Scope py_scope with py.
Notation "x <- c ;; k" := (bind c (fun x => k))
  (at level 61, c at next level, right associativity) : py_scope.
Notation "' p <- c ;; k" := (bind c (fun x => let 'p := x in k))
  (at level 61, p pattern, c at next level, right associativity) : py_scope.
Notation "c ;;; k" := (bind c (fun _ => k))
  (at level 61, right associativity) : py_scope.

(* ------------------------------------------------------------------ *)
(** ** class CamExtractor *)

Module CamExtractor.
Record t : Type := mk {
  model : Model;
  target_layer : Z;
  head : Module;
  feed_target : bool;
  gradients : option Tensor
}.

(** [__init__] *)
Definition init (model : Model) (target_layer : Z) (head : Module)
    (feed_target : bool) : t :=
  mk model target_layer head feed_target None.

Definition save_gradient (grad : Tensor) (self : t) : t :=
  mk (model self) (target_layer self) (head self) (feed_target self)
     (Some grad).

(** One turn of the loop of [forward_pass_on_convolutions]. *)
Definition forward_step (self : t) (acc : option Var * Var)
    (pm : nat * Module) : option Var * Var :=
  let '(conv_output, x) := acc in
  let '(module_pos, module) := pm in
  let x := apply1 module x in
  if Z.of_nat module_pos =? target_layer self
  then let x := register_hook x in (Some x, x)
  else (conv_output, x).

Definition forward_pass_on_convolutions (self : t) (x : Var)
    : option Var * Var :=
  fold_left (forward_step self) (enumerate (children (model self))) (None, x).

Definition forward_pass (self : t) (x : Var) (target : LongTensor)
    : Result (option Var * Var) :=
  (let '(conv_output, x) := forward_pass_on_convolutions self x in
   x <- view_flat x ;;
   let x := if feed_target self
            then apply2 (head self) x target
            else apply1 (head self) x in
   Ok (conv_output, x))%result.
End CamExtractor.

(* ------------------------------------------------------------------ *)
(** ** class GradCam *)

Module GradCam.
Record t : Type := mk {
  model : Model;
  separate_head : Module;
  extractor : CamExtractor.t;
  device : option string
}.

(** [list(model.children())[-1]] *)
Definition last_child (l : list Module) : Result Module :=
  match l with
  | [] => Err (IndexError (-1) 0)
  | m :: l' => Ok (last l' m)
  end.

Definition is_not_None {A} (o : option A) : bool :=
  match o with Some _ => true | None => false end.

(** [__init__] *)
Definition init (model : Model) (target_layer : Z)
    (separate_head : option Module) (device : option string)
    (feed_target : option bool) : Result t :=
  (let feed_target :=
     match feed_target with
     | None => is_not_None separate_head
     | Some b => b
     end in
   '(separate_head, model) <-
     match separate_head with
     | None =>
         h <- last_child (children model) ;;
         Ok (h, Sequential (removelast (children model)))
     | Some h => Ok (h, model)
     end ;;
   let model := eval_model model in
   let separate_head := eval separate_head in
   Ok (mk model separate_head
          (CamExtractor.init model target_layer separate_head feed_target)
          device))%result.

(** The hook the extractor registers, seen from the [GradCam] object that
    owns the extractor. *)
Definition save_gradient (grad : Tensor) (self : t) : t :=
  mk (model self) (separate_head self)
     (CamExtractor.save_gradient grad (extractor self)) (device self).

(** Line 129: one weight per channel of the gradient. *)
Definition cam_weights (guided_gradients : Tensor) : Result Tensor :=
  np.mean_axis12 guided_gradients.

(** Lines 133 and 134:
    [for i, w in enumerate(weights): cam += w * target[i, :, :]] *)
Fixpoint cam_loop (target : Tensor) (iws : list (nat * F32.t))
    (cam : Tensor) : Result Tensor :=
  match iws with
  | [] => Ok cam
  | (i, w) :: rest =>
      (slice <- np.getitem_i_all_all target i ;;
       cam_loop target rest (np.iadd cam (np.scalar_mul w slice)))%result
  end.

(** Lines 131 to 135: the rectified weighted sum. *)
Definition cam_accumulate (weights target : Tensor) : Result Tensor :=
  (let cam := np.ones (tl (shape target)) in
   cam <- cam_loop target (enumerate (data weights)) cam ;;
   Ok (np.maximum0 cam))%result.

(** Line 136 *)
Definition cam_normalize (cam : Tensor) : Result Tensor :=
  (mn <- np.amin cam ;;
   mx <- np.amax cam ;;
   mn' <- np.amin cam ;;
   Ok (map_array (fun x => F32.div (F32.sub x mn) (F32.sub mx mn')) cam))%result.

Section Platform.
Variable cast_undefined : F32.t -> Z.
Variable antialias : Image.t -> nat -> nat -> nat -> nat -> Z.

(** Line 137 *)
Definition cam_quantize (cam : Tensor) : ndarray Z :=
  np.uint8 cast_undefined (map_array (fun x => F32.mul x (F32.of_Z 255)) cam).

(** Lines 138 and 139 *)
Definition cam_resize (cam : ndarray Z) (input_shape : list nat)
    : Result (ndarray F64.t) :=
  (im <- Image.fromarray cam ;;
   s2 <- shape_at input_shape 2 ;;
   s3 <- shape_at input_shape 3 ;;
   im <- Image.resize antialias im (s2, s3) ;;
   Ok (np.div255 (Image.toarray im)))%result.

Definition generate_cam (input_image : Tensor) (target_class : Z)
    (counterfactual : bool) : Py t (ndarray F64.t) :=
  (label <- lift (torch_tensor1 target_class) ;;
   (* [.to(self.device)] leaves the values as they are *)
   self <- get ;;
   '(conv_output, model_output) <-
      lift (CamExtractor.forward_pass (extractor self)
              (mk_Var input_image []) label) ;;
   n <- lift (shape_last (shape (value model_output))) ;;
   one_hot_output <- lift (setitem_row0 (zeros_1xn n) target_class F32.one) ;;
   (* [zero_grad()] clears parameter gradients, which no step reads *)
   backward save_gradient model_output one_hot_output ;;;
   self <- get ;;
   g <- lift (dot_data (CamExtractor.gradients (extractor self))) ;;
   guided_gradients <- lift (index0 g 0) ;;
   let guided_gradients :=
     if counterfactual then np.negative guided_gradients
     else guided_gradients in
   c <- lift (dot_data conv_output) ;;
   target <- lift (index0 (value c) 0) ;;
   weights <- lift (cam_weights guided_gradients) ;;
   cam <- lift (cam_accumulate weights target) ;;
   cam <- lift (cam_normalize cam) ;;
   let cam := cam_quantize cam in
   lift (cam_resize cam (shape input_image)))%py.
End Platform.
End GradCam.

(* ================================================================== *)
(** * Vocabulary of the properties *)

(* ------------------------------------------------------------------ *)
(** ** The recorded history *)

(** No hook sits on the chain. *)
Fixpoint no_hook (h : list Node) : Prop :=
  match h with
  | [] => True
  | BackFn _ :: h' => no_hook h'
  | Hook :: _ => False
  end.

(** [conv] carries the hook, and nothing before it does. *)
Definition hooked (conv : Var) : Prop :=
  exists h0, history conv = Hook :: h0 /\ no_hook h0.

(** [x] was computed from [conv] by operations whose backward functions
    respect shapes. *)
Inductive pulls_back (conv : Var) : Var -> Prop :=
| pb_here : pulls_back conv conv
| pb_step : forall x v f,
    pulls_back conv x ->
    (forall g, shape (f g) = shape (value x)) ->
    pulls_back conv (mk_Var v (BackFn f :: history x)).

(** What holds after the first [k] children of the body have been
    applied: the hook is in place exactly when the target layer is among
    them. *)
Definition fwd_inv (self : CamExtractor.t) (k : nat)
    (acc : option Var * Var) : Prop :=
  match fst acc with
  | None =>
      no_hook (history (snd acc)) /\
      ~ (0 <= CamExtractor.target_layer self < Z.of_nat k)
  | Some conv =>
      pulls_back conv (snd acc) /\ hooked conv /\
      0 <= CamExtractor.target_layer self < Z.of_nat k
  end.

(* ------------------------------------------------------------------ *)
(** ** Bytes, indices and queries *)

(** A value of numpy's [uint8]. *)
Definition byte (z : Z) : Prop := 0 <= z <= 255.

(** A [float64] between 0 and 1, both included. *)
Definition in_unit_interval (v : F64.t) : bool :=
  F64.leb F64.zero v && F64.leb v F64.one.

(** The position Python's indexing reaches for an index in [-n, n). *)
Definition wrapped_index (i : Z) (n : nat) : nat :=
  if i <? 0 then Z.to_nat (Z.of_nat n + i) else Z.to_nat i.

(** A query on which every step before the heat map is defined: the class
    index fits a 64-bit label, the image has shape (b, ch, H, W) with a
    non-empty plane, the forward pass goes through and meets the target
    layer, whose output [conv] is a non-empty batch of non-empty feature
    maps, and the head answers with one row of [classes] scores. *)
Record well_formed_query (self : GradCam.t) (input_image : Tensor)
    (target_class : Z) (H W : nat) (conv out : Var) (classes : nat)
    : Prop := {
  wfq_label : - 2 ^ 63 <= target_class < 2 ^ 63;
  wfq_image : exists b ch, shape input_image = [b; ch; H; W];
  wfq_H : (0 < H)%nat;
  wfq_W : (0 < W)%nat;
  wfq_forward :
    CamExtractor.forward_pass (GradCam.extractor self)
      (mk_Var input_image []) (mk_ndarray [1%nat] [target_class])
    = Ok (Some conv, out);
  wfq_conv : exists n c h w, shape (value conv) = [S n; c; S h; S w];
  wfq_conv_data : well_shaped (value conv);
  wfq_out : shape (value out) = [1%nat; classes]
}.

(** Lines 103 to 116: what is computed before the backward pass.  It reads
    the extractor but not its [gradients]. *)
Definition query_prefix (ext : CamExtractor.t) (input_image : Tensor)
    (target_class : Z) : Result (option Var * Var * Tensor) :=
  (label <- torch_tensor1 target_class ;;
   '(conv_output, model_output) <-
      CamExtractor.forward_pass ext (mk_Var input_image []) label ;;
   n <- shape_last (shape (value model_output)) ;;
   one_hot_output <- setitem_row0 (zeros_1xn n) target_class F32.one ;;
   Ok (conv_output, model_output, one_hot_output))%result.

(** Lines 123 to 139: what is computed after it, from the hooked
    activation and the [gradients] the extractor then holds. *)
Definition query_suffix (cast_undefined : F32.t -> Z)
    (antialias : Image.t -> nat -> nat -> nat -> nat -> Z)
    (input_image : Tensor) (counterfactual : bool)
    (conv_output : option Var) (gradients : option Tensor)
    : Result (ndarray F64.t) :=
  (g <- dot_data gradients ;;
   guided_gradients <- index0 g 0 ;;
   let guided_gradients :=
     if counterfactual then np.negative guided_gradients
     else guided_gradients in
   c <- dot_data conv_output ;;
   target <- index0 (value c) 0 ;;
   weights <- GradCam.cam_weights guided_gradients ;;
   cam <- GradCam.cam_accumulate weights target ;;
   cam <- GradCam.cam_normalize cam ;;
   let cam := GradCam.cam_quantize cast_undefined cam in
   GradCam.cam_resize antialias cam (shape input_image))%result.



(* ------------------------------------------------------------------ *)
(** ** The order of the floats *)

(** A float that is not NaN, as a point of a lexicographic order. *)
Definition order_key (x : F32.t) : Z * Z * Z :=
  match x with
  | S754_zero _ => (0, 0, 0)
  | S754_infinity false => (2, 0, 0)
  | S754_infinity true => (-2, 0, 0)
  | S754_finite false m e => (1, e, Zpos m)
  | S754_finite true m e => (-1, - e, - Zpos m)
  | S754_nan => (0, 0, 0)
  end.

Definition lex_le (p q : Z * Z * Z) : Prop :=
  let '(a, b, c) := p in
  let '(a', b', c') := q in
  a < a' \/ (a = a' /\ (b < b' \/ (b = b' /\ c <= c'))).

(* ------------------------------------------------------------------ *)
(** ** Elements, means and sums as the specification words them *)

Local Open Scope nat_scope.






(** The specification's end-to-end scenario: an activation of shape
    (2, 3, 3) filled with 1.0 and the weights [1.0, 0.0]. *)
Definition activation_2_3_3 : Tensor :=
  mk_ndarray [2; 3; 3] (repeat F32.one 18).

Definition weights_1_0 : Tensor :=
  mk_ndarray [2] [F32.one; F32.zero].

(* ------------------------------------------------------------------ *)
(** ** The network as a composition *)







(** A float that is a zero of either sign, and one that is a zero or a
    finite number. *)
Definition is_zero (x : F32.t) : Prop :=
  match x with S754_zero _ => True | _ => False end.

Definition is_finite (x : F32.t) : Prop :=
  match x with S754_zero _ | S754_finite _ _ _ => True | _ => False end.

(** A value of the returned array: a byte divided by 255. *)
Definition byte_over_255 (v : F64.t) : Prop :=
  exists k, (0 <= k <= 255)%Z /\ v = F64.div (F64.of_Z k) (F64.of_Z 255).


Local Open Scope Z_scope.

(* ------------------------------------------------------------------ *)
(** ** A small network to run the code on *)

Module Demo.
(** A 1 by 1 convolution of one channel with weight 1.0 and no bias: it
    returns its input, and its backward function returns the gradient it
    is given. *)
Definition identity_layer : Module :=
  mk_Module true
    (fun _ x => x) (fun _ x _ => x)
    (fun _ x g => mk_ndarray (shape x) (data g))
    (fun _ x _ g => mk_ndarray (shape x) (data g))
    (fun _ _ _ => eq_refl) (fun _ _ _ _ => eq_refl).

Definition dot (u v : list F32.t) : F32.t :=
  fold_left F32.add (zip_with F32.mul u v) F32.zero.

(** A linear head without bias: one row of weights per class. *)
Definition linear (W : list (list F32.t)) : Module :=
  let forward (x : Tensor) : Tensor :=
    mk_ndarray [1%nat; length W] (map (fun r => dot r (data x)) W) in
  let pull (x g : Tensor) : Tensor :=
    mk_ndarray (shape x)
      (map (fun i => dot (map (fun r => nth i r F32.zero) W) (data g))
           (seq 0 (length (data x)))) in
  mk_Module true
    (fun _ x => forward x) (fun _ x _ => forward x)
    (fun _ x g => pull x g) (fun _ x _ g => pull x g)
    (fun _ _ _ => eq_refl) (fun _ _ _ _ => eq_refl).

(** Two classes over six features; the second class ignores its input,
    so every gradient for it is zero. *)
Definition head : Module :=
  linear [map F32.of_Z [1; 0; 0; 0; 0; 0]; map F32.of_Z [0; 0; 0; 0; 0; 0]]%Z.

Definition net : Model := Sequential [identity_layer; head].

(** An image of one channel, 2 rows and 3 columns. *)
Definition image : Tensor :=
  mk_ndarray [1; 1; 2; 3]%nat (map F32.of_Z [1; 2; 3; 4; 5; 6]%Z).

(** [GradCam(net, target_layer)] *)
Definition grad_cam (target_layer : Z) : GradCam.t :=
  let body := Sequential [eval identity_layer] in
  GradCam.mk body (eval head)
    (CamExtractor.init body target_layer (eval head) false) None.

(** A machine whose undefined conversions give [v]. *)
Definition cast_to (v : Z) : F32.t -> Z := fun _ => v.

(** Nearest-neighbour sampling, standing in for the antialiasing
    filter. *)
Definition nearest (im : Image.t) (w h x y : nat) : Z :=
  nth ((y * Image.height im / h) * Image.width im
       + x * Image.width im / w)%nat
      (Image.pixels im) 0%Z.

(** The output of the hooked layer and of the head on [image]. *)
Definition conv : Var :=
  register_hook (apply1 (eval identity_layer) (mk_Var image [])).

Definition out (x : Var) : Var :=
  match view_flat x with
  | Ok y => apply1 (eval head) y
  | Err _ => x
  end.
End Demo.

(* ================================================================== *)
(** * Properties *)

(* ------------------------------------------------------------------ *)
(** ** The recorded history and the backward pass *)

Lemma run_backward_no_hook {S} (hook : Tensor -> S -> S) h :
  no_hook h -> forall g s, run_backward hook h g s = s.
Proof.
  induction h as [|[f|] h IH]; simpl; intros Hn g s.
  - reflexivity.
  - apply IH; assumption.
  - contradiction.
Qed.

Lemma run_backward_pulls_back {S} (hook : Tensor -> S -> S) conv x :
  pulls_back conv x ->
  forall g s, shape g = shape (value x) ->
  exists g', shape g' = shape (value conv) /\
             run_backward hook (history x) g s
             = run_backward hook (history conv) g' s.
Proof.
  induction 1 as [|x v f Hpb IH Hf]; intros g s Hg.
  - exists g; split; [assumption | reflexivity].
  - simpl. destruct (IH (f g) s (Hf g)) as [g' [Hs He]].
    exists g'; split; assumption.
Qed.

(** The gradient a backward pass delivers to a hooked tensor has that
    tensor's shape, and the hook is called exactly with it. *)
Lemma run_backward_hooked {S} (hook : Tensor -> S -> S) conv x :
  pulls_back conv x -> hooked conv ->
  forall g s, shape g = shape (value x) ->
  exists g', shape g' = shape (value conv) /\
             run_backward hook (history x) g s = hook g' s.
Proof.
  intros Hpb [h0 [Hh Hn]] g s Hg.
  destruct (run_backward_pulls_back hook conv x Hpb g s Hg) as [g' [Hs He]].
  exists g'; split; [assumption|].
  rewrite He, Hh; simpl. apply run_backward_no_hook; assumption.
Qed.

(** Whatever the chain, a backward pass either leaves the state alone or
    ends with one call of the hook. *)
Lemma run_backward_cases {S} (hook : Tensor -> S -> S)
    (Hover : forall g1 g2 s, hook g2 (hook g1 s) = hook g2 s) h :
  forall g, (forall s, run_backward hook h g s = s) \/
            (exists g', forall s, run_backward hook h g s = hook g' s).
Proof.
  induction h as [|[f|] h IH]; simpl; intros g.
  - left; reflexivity.
  - apply IH.
  - destruct (IH g) as [He | [g' He]].
    + right; exists g; intros s; apply He.
    + right; exists g'; intros s; rewrite He; apply Hover.
Qed.

(* ------------------------------------------------------------------ *)
(** ** The forward pass of the extractor *)

Section ForwardPass.
Variable self : CamExtractor.t.

Lemma forward_step_inv k acc m :
  fwd_inv self k acc -> fwd_inv self (S k) (CamExtractor.forward_step self acc (k, m)).
Proof.
  destruct acc as [co x]; unfold fwd_inv, CamExtractor.forward_step; simpl.
  destruct (Z.eqb_spec (Z.of_nat k) (CamExtractor.target_layer self))
  as [E|E]; simpl.
  - intros H. destruct co as [conv|].
    + exfalso; lia.
    + destruct H as [Hn _]. split; [constructor|]. split; [|lia].
      eexists; split; [reflexivity|]. simpl; exact Hn.
  - destruct co as [conv|]; intros H.
    + destruct H as (Hpb & Hh & Hr). split; [|split; [assumption|lia]].
      apply pb_step; [assumption|]. intros g; apply vjp1_shape.
    + destruct H as [Hn Hr]. split; [exact Hn | lia].
Qed.

Lemma forward_fold_inv l : forall k acc,
  fwd_inv self k acc ->
  fwd_inv self (k + length l)
    (fold_left (CamExtractor.forward_step self)
       (combine (seq k (length l)) l) acc).
Proof.
  induction l as [|m l IH]; simpl; intros k acc H.
  - rewrite Nat.add_0_r; assumption.
  - rewrite <- Nat.add_succ_comm. apply IH, forward_step_inv, H.
Qed.

Lemma forward_pass_on_convolutions_inv x :
  no_hook (history x) ->
  fwd_inv self (length (children (CamExtractor.model self)))
    (CamExtractor.forward_pass_on_convolutions self x).
Proof.
  intros Hx. unfold CamExtractor.forward_pass_on_convolutions, enumerate.
  apply (forward_fold_inv (children (CamExtractor.model self)) 0 (None, x)).
  unfold fwd_inv; simpl. split; [assumption | lia].
Qed.

Lemma fwd_inv_extend k co y (v1 : Tensor) f1 v2 f2 :
  fwd_inv self k (co, y) ->
  (forall g, shape (f1 g) = shape (value y)) ->
  (forall g : Tensor, shape (f2 g) = shape v1) ->
  fwd_inv self k (co, mk_Var v2 (BackFn f2 :: BackFn f1 :: history y)).
Proof.
  unfold fwd_inv; simpl. intros Hinv H1 H2. destruct co as [conv|].
  - destruct Hinv as (Hpb & Hh & Hr). split; [|split; assumption].
    apply (pb_step conv (mk_Var v1 (BackFn f1 :: history y))); [|exact H2].
    apply pb_step; assumption.
  - exact Hinv.
Qed.

Lemma forward_pass_inv x target co out :
  no_hook (history x) ->
  CamExtractor.forward_pass self x target = Ok (co, out) ->
  fwd_inv self (length (children (CamExtractor.model self))) (co, out).
Proof.
  intros Hx. unfold CamExtractor.forward_pass.
  pose proof (forward_pass_on_convolutions_inv x Hx) as Hinv.
  destruct (CamExtractor.forward_pass_on_convolutions self x) as [co' y].
  unfold view_flat.
  destruct (shape (value y)) as [|[|d] rest] eqn:Hs; simpl; try discriminate.
  intros E.
  destruct (CamExtractor.feed_target self); inversion E; subst; clear E;
    unfold apply1, apply2; simpl;
    (eapply fwd_inv_extend;
     [ exact Hinv
     | intros g; simpl; symmetry; exact Hs
     | intros g; first [apply vjp2_shape | apply vjp1_shape] ]).
Qed.
End ForwardPass.

(* ------------------------------------------------------------------ *)
(** ** Lists and slices *)

Local Open Scope nat_scope.

Lemma zip_with_length {A B C} (f : A -> B -> C) l : forall m,
  length (zip_with f l m) = Nat.min (length l) (length m).
Proof.
  induction l as [|x l IH]; intros [|y m]; simpl; auto.
Qed.

Lemma zip_with_nth {A B C} (f : A -> B -> C) dc da db l : forall m k,
  k < length l -> k < length m ->
  nth k (zip_with f l m) dc = f (nth k l da) (nth k m db).
Proof.
  induction l as [|x l IH]; intros [|y m] [|k]; simpl; intros Hl Hm;
    try lia; [reflexivity | apply IH; lia].
Qed.

Lemma nth_skipn {A} (d : A) l : forall m k,
  nth k (skipn m l) d = nth (m + k) l d.
Proof.
  intros m; revert l.
  induction m as [|m IH]; intros [|x l] k; simpl; auto.
  destruct k; reflexivity.
Qed.

Lemma nth_firstn {A} (d : A) l : forall n k,
  k < n -> nth k (firstn n l) d = nth k l d.
Proof.
  induction l as [|x l IH]; intros [|n] [|k] H; simpl; auto; try lia.
  apply IH; lia.
Qed.

Lemma chunks_length {A} k n : forall l : list A, length (np.chunks k n l) = n.
Proof.
  induction n as [|n IH]; simpl; intros l; [reflexivity | now rewrite IH].
Qed.


Lemma numel_2 h w : numel [h; w] = h * w.
Proof. unfold numel; simpl. now rewrite Nat.mul_1_r. Qed.

Lemma numel_3 c h w : numel [c; h; w] = c * (h * w).
Proof. unfold numel; simpl. now rewrite Nat.mul_1_r. Qed.

(** The [i]-th slice of a well-shaped array of shape (c, h, w). *)
Lemma slice_length {A} (l : list A) c hw i :
  length l = c * hw -> i < c ->
  length (firstn hw (skipn (i * hw) l)) = hw.
Proof.
  intros Hl Hi. rewrite length_firstn, length_skipn, Hl. nia.
Qed.

Lemma enumerate_from_In {A} (l : list A) : forall k i x,
  In (i, x) (combine (seq k (length l)) l) -> k <= i < k + length l.
Proof.
  induction l as [|y l IH]; simpl; intros k i x H; [contradiction|].
  destruct H as [H|H].
  - inversion H; lia.
  - apply IH in H; lia.
Qed.

Lemma fold_left_ext_in {A B} (f g : B -> A -> B) l :
  (forall b x, In x l -> f b x = g b x) ->
  forall b, fold_left f l b = fold_left g l b.
Proof.
  induction l as [|x l IH]; simpl; intros H b; [reflexivity|].
  rewrite H by (left; reflexivity). apply IH.
  intros b' y Hy; apply H; right; assumption.
Qed.

(** A loop over [enumerate(l)] is a loop over the positions of [l]. *)
Lemma fold_left_enumerate {A B} (f : B -> nat -> A -> B) d (l : list A) :
  forall k b,
  fold_left (fun acc p => f acc (fst p) (snd p)) (combine (seq k (length l)) l) b
  = fold_left (fun acc i => f acc i (nth (i - k) l d)) (seq k (length l)) b.
Proof.
  induction l as [|x l IH]; simpl; intros k b; [reflexivity|].
  rewrite Nat.sub_diag, IH. apply fold_left_ext_in.
  intros acc i Hi. apply in_seq in Hi.
  replace (i - k) with (S (i - S k)) by lia. reflexivity.
Qed.

Lemma map_nth_lt {A B} (f : A -> B) da db l : forall k,
  k < length l -> nth k (map f l) db = f (nth k l da).
Proof.
  induction l as [|x l IH]; intros [|k] H; simpl in *; try lia; auto.
  apply IH; lia.
Qed.

Lemma repeat_nth_lt {A} (a d : A) n : forall k,
  k < n -> nth k (repeat a n) d = a.
Proof.
  induction n as [|n IH]; intros [|k] H; simpl; try lia; auto.
  apply IH; lia.
Qed.

(* ------------------------------------------------------------------ *)
(** ** The weighted sum of line 131 to 135 *)

Section Accumulate.
Variable target : Tensor.
Variables c h w : nat.
Hypothesis Hshape : shape target = [c; h; w].
Hypothesis Hws : well_shaped target.

Lemma target_length : length (data target) = c * (h * w).
Proof. unfold well_shaped in Hws. now rewrite Hws, Hshape, numel_3. Qed.

Lemma getitem_slice i :
  i < c ->
  np.getitem_i_all_all target i
  = Ok (mk_ndarray [h; w]
          (firstn (h * w) (skipn (i * (h * w)) (data target)))).
Proof.
  intros Hi. unfold np.getitem_i_all_all, index0. rewrite Hshape.
  cbn -[numel Nat.mul firstn skipn Nat.ltb].
  change (3 <? 3) with false. cbv iota.
  apply Nat.ltb_lt in Hi; rewrite Hi. now rewrite numel_2.
Qed.

(** The loop goes through, keeps the shape of [cam], and adds to each
    element the products of the weights with the elements of the slices
    at the same place, in the order of the loop. *)
Lemma cam_loop_spec : forall iws cam,
  (forall i x, In (i, x) iws -> i < c) ->
  length (data cam) = h * w ->
  exists cam',
    GradCam.cam_loop target iws cam = Ok cam' /\
    shape cam' = shape cam /\
    length (data cam') = h * w /\
    forall k, k < h * w ->
      nth k (data cam') S754_nan
      = fold_left
          (fun acc p =>
             F32.add acc
               (F32.mul (snd p) (nth (fst p * (h * w) + k) (data target) S754_nan)))
          iws (nth k (data cam) S754_nan).
Proof.
  induction iws as [|[i x] iws IH]; intros cam Hin Hlen; simpl.
  - exists cam; repeat split; auto.
  - assert (Hi : i < c) by (apply (Hin i x); left; reflexivity).
    rewrite (getitem_slice i Hi); simpl.
    pose proof (slice_length (data target) c (h * w) i target_length Hi) as Hsl.
    destruct (IH (np.iadd cam
                    (np.scalar_mul x
                       (mk_ndarray [h; w]
                          (firstn (h * w)
                             (skipn (i * (h * w)) (data target)))))))
      as (cam' & Hr & Hs & Hl & Hv).
    + intros j y Hj; apply (Hin j y); right; assumption.
    + simpl. rewrite zip_with_length, length_map, Hsl, Hlen.
      apply Nat.min_id.
    + exists cam'; repeat split; auto. intros k Hk.
      rewrite (Hv k Hk). f_equal. simpl.
      rewrite (zip_with_nth F32.add S754_nan S754_nan S754_nan)
        by (rewrite ?length_map; lia).
      f_equal. rewrite (map_nth_lt (F32.mul x) S754_nan S754_nan) by lia.
      f_equal. rewrite nth_firstn by assumption. apply nth_skipn.
Qed.

(** The accumulator before normalisation, element by element. *)
Lemma cam_accumulate_spec weights :
  length (data weights) <= c ->
  exists cam,
    GradCam.cam_accumulate weights target = Ok cam /\
    shape cam = [h; w] /\
    length (data cam) = h * w /\
    forall k, k < h * w ->
      nth k (data cam) S754_nan
      = np.fmaximum
          (fold_left
             (fun acc ch =>
                F32.add acc
                  (F32.mul (nth ch (data weights) S754_nan)
                           (nth (ch * (h * w) + k) (data target) S754_nan)))
             (seq 0 (length (data weights))) F32.one)
          F32.zero.
Proof.
  intros Hw. unfold GradCam.cam_accumulate. rewrite Hshape; simpl tl.
  destruct (cam_loop_spec (enumerate (data weights)) (np.ones [h; w]))
    as (cam & Hr & Hs & Hl & Hv).
  - intros i x Hi. apply enumerate_from_In in Hi. lia.
  - unfold np.ones; cbn [data]. now rewrite repeat_length, numel_2.
  - rewrite Hr; simpl. eexists; split; [reflexivity|].
    simpl. split; [exact Hs|]. split; [now rewrite length_map|].
    intros k Hk.
    rewrite (map_nth_lt (fun x => np.fmaximum x F32.zero) S754_nan S754_nan) by lia.
    f_equal. rewrite (Hv k Hk). unfold enumerate.
    rewrite (fold_left_enumerate
               (fun acc i x =>
                  F32.add acc
                    (F32.mul x (nth (i * (h * w) + k) (data target) S754_nan)))
               S754_nan (data weights) 0).
    unfold np.ones; cbn [data].
    rewrite (repeat_nth_lt F32.one S754_nan) by (rewrite numel_2; lia).
    apply fold_left_ext_in. intros acc i _. now rewrite Nat.sub_0_r.
Qed.
End Accumulate.

(* ------------------------------------------------------------------ *)
(** ** Normalisation, quantisation and resizing *)

Local Open Scope Z_scope.

Lemma cam_normalize_ok cam :
  data cam <> [] ->
  exists cam',
    GradCam.cam_normalize cam = Ok cam' /\
    shape cam' = shape cam /\
    length (data cam') = length (data cam).
Proof.
  intros Hne. unfold GradCam.cam_normalize, np.amin, np.amax.
  destruct (data cam) as [|x l] eqn:Hd; [contradiction|]. simpl.
  eexists; split; [reflexivity|]. simpl. rewrite Hd; simpl.
  now rewrite length_map.
Qed.

Lemma uint8_of_float_byte cast_undefined x :
  byte (np.uint8_of_float cast_undefined x).
Proof.
  unfold np.uint8_of_float, byte.
  assert (Hm : 0 <= cast_undefined x mod 256 <= 255).
  { pose proof (Z.mod_pos_bound (cast_undefined x) 256); lia. }
  destruct (F32.trunc x) as [z|]; [|exact Hm].
  destruct ((0 <=? z) && (z <=? 255)) eqn:E; [|exact Hm].
  apply andb_true_iff in E; destruct E as [E1 E2].
  apply Z.leb_le in E1, E2; lia.
Qed.

Lemma cam_quantize_bytes cast_undefined cam :
  Forall byte (data (GradCam.cam_quantize cast_undefined cam)).
Proof.
  unfold GradCam.cam_quantize, np.uint8, map_array; simpl.
  apply Forall_map, Forall_map, Forall_forall. intros x _.
  apply uint8_of_float_byte.
Qed.

Lemma clip8_byte z : byte (Image.clip8 z).
Proof. unfold Image.clip8, byte; lia. Qed.

Lemma flat_map_rows_length {A} (f : nat -> list A) w rows :
  (forall y, length (f y) = w) ->
  length (flat_map f rows) = (length rows * w)%nat.
Proof.
  intros Hf. induction rows as [|y rows IH]; simpl; [reflexivity|].
  now rewrite length_app, Hf, IH.
Qed.

(** Resizing gives an image of the asked width and height, in that order,
    whose pixels are bytes. *)
Lemma resize_spec antialias im w h :
  (0 < w)%nat -> (0 < h)%nat ->
  exists im',
    Image.resize antialias im (w, h) = Ok im' /\
    Image.width im' = w /\ Image.height im' = h /\
    (length (Image.pixels im) = (Image.height im * Image.width im)%nat ->
     length (Image.pixels im') = (h * w)%nat).
Proof.
  intros Hw Hh. unfold Image.resize.
  destruct ((w =? Image.width im)%nat && (h =? Image.height im)%nat) eqn:E.
  - apply andb_true_iff in E; destruct E as [E1 E2].
    apply Nat.eqb_eq in E1, E2. exists im; repeat split; auto.
    now rewrite E1, E2.
  - assert (E' : ((w <? 1) || (h <? 1))%nat = false).
    { apply orb_false_iff; split; apply Nat.ltb_ge; lia. }
    rewrite E'. eexists; split; [reflexivity|]. simpl.
    repeat split. intros _.
    rewrite (flat_map_rows_length _ w), length_seq; [reflexivity|].
    intros y. now rewrite length_map, length_seq.
Qed.

Lemma resize_bytes antialias im size im' :
  Image.resize antialias im size = Ok im' ->
  Forall byte (Image.pixels im) -> Forall byte (Image.pixels im').
Proof.
  unfold Image.resize. destruct size as [w h].
  destruct ((w =? Image.width im)%nat && (h =? Image.height im)%nat).
  - intros E; inversion E; subst; auto.
  - destruct ((w <? 1) || (h <? 1))%nat; [discriminate|].
    intros E _; inversion E; subst; clear E; simpl.
    apply Forall_flat_map, Forall_forall. intros y _.
    apply Forall_map, Forall_forall. intros x _. apply clip8_byte.
Qed.

(** Every byte divided by 255 lies between 0 and 1: checked on the 256
    bytes. *)
Lemma div255_all_bytes :
  forallb (fun k => in_unit_interval
                      (F64.div (F64.of_Z (Z.of_nat k)) (F64.of_Z 255)))
          (seq 0 256) = true.
Proof. vm_compute. reflexivity. Qed.

Lemma div255_unit z :
  byte z -> in_unit_interval (F64.div (F64.of_Z z) (F64.of_Z 255)) = true.
Proof.
  intros Hz. pose proof div255_all_bytes as H.
  rewrite forallb_forall in H. specialize (H (Z.to_nat z)).
  rewrite Z2Nat.id in H by (unfold byte in Hz; lia).
  apply H, in_seq. unfold byte in Hz; lia.
Qed.

Lemma div255_unit_all a :
  Forall byte (data a) ->
  Forall (fun v => in_unit_interval v = true) (data (np.div255 a)).
Proof.
  intros H. unfold np.div255, map_array; simpl.
  apply Forall_map. revert H; apply Forall_impl. intros z; apply div255_unit.
Qed.

(** Whatever [cam_resize] returns holds values between 0 and 1. *)
Lemma cam_resize_unit antialias cam input_shape out :
  Forall byte (data cam) ->
  GradCam.cam_resize antialias cam input_shape = Ok out ->
  Forall (fun v => in_unit_interval v = true) (data out).
Proof.
  intros Hb. unfold GradCam.cam_resize, Image.fromarray.
  destruct (shape cam) as [|h [|w [|? ?]]]; cbn [rbind];
    try (intros; discriminate).
  destruct (shape_at input_shape 2) as [s2|]; cbn [rbind];
    [|intros; discriminate].
  destruct (shape_at input_shape 3) as [s3|]; cbn [rbind];
    [|intros; discriminate].
  destruct (Image.resize antialias (Image.mk w h (data cam)) (s2, s3))
    as [im'|] eqn:E; cbn [rbind]; [|intros; discriminate].
  intros E'; inversion E'; subst; clear E'.
  apply div255_unit_all; simpl.
  apply (resize_bytes _ _ _ _ E). exact Hb.
Qed.

(** A 2-D map resized for an image of shape (b, ch, H, W): the result has
    shape (W, H). *)
Lemma cam_resize_shape antialias cam h w b ch H W :
  shape cam = [h; w] ->
  (0 < H)%nat -> (0 < W)%nat ->
  exists out,
    GradCam.cam_resize antialias cam [b; ch; H; W] = Ok out /\
    shape out = [W; H] /\
    (length (data cam) = (h * w)%nat -> well_shaped out).
Proof.
  intros Hs HH HW. unfold GradCam.cam_resize, Image.fromarray.
  rewrite Hs; cbn [rbind shape_at nth_error].
  destruct (resize_spec antialias (Image.mk w h (data cam)) H W HH HW)
    as (im' & Hr & Hwid & Hhei & Hlen).
  rewrite Hr; cbn [rbind]. eexists; split; [reflexivity|].
  unfold well_shaped, np.div255, map_array, Image.toarray; cbn [shape data].
  rewrite Hwid, Hhei. split; [reflexivity|].
  intros Hl. rewrite length_map, numel_2. apply Hlen. exact Hl.
Qed.

(* ------------------------------------------------------------------ *)
(** ** Running [generate_cam] *)

Lemma bind_lift_Ok {S A B} (r : Result A) (a : A) (k : A -> Py S B) s :
  r = Ok a -> bind (lift r) k s = k a s.
Proof. intros ->; reflexivity. Qed.

Lemma bind_lift_Err {S A B} (r : Result A) e (k : A -> Py S B) s :
  r = Err e -> bind (lift r) k s = (Err e, s).
Proof. intros ->; reflexivity. Qed.

Lemma bind_get {S B} (k : S -> Py S B) s : bind get k s = k s s.
Proof. reflexivity. Qed.

Lemma torch_tensor1_ok c :
  - 2 ^ 63 <= c < 2 ^ 63 -> torch_tensor1 c = Ok (mk_ndarray [1%nat] [c]).
Proof.
  intros [H1 H2]. unfold torch_tensor1.
  apply Z.leb_le in H1. apply Z.ltb_lt in H2. now rewrite H1, H2.
Qed.

Lemma normalize_index_ok i n :
  - Z.of_nat n <= i < Z.of_nat n ->
  normalize_index i n = Ok (wrapped_index i n).
Proof.
  intros [H1 H2]. unfold normalize_index, wrapped_index.
  destruct (Z.ltb_spec i 0) as [Hn|Hn].
  - replace (0 <=? i) with false by (symmetry; apply Z.leb_gt; lia).
    simpl. apply Z.leb_le in H1. now rewrite H1.
  - replace (0 <=? i) with true by (symmetry; apply Z.leb_le; lia).
    apply Z.ltb_lt in H2. now rewrite H2.
Qed.


(** The seed of line 113 and 114 for an index Python accepts. *)
Lemma one_hot_ok i n :
  - Z.of_nat n <= i < Z.of_nat n ->
  setitem_row0 (zeros_1xn n) i F32.one
  = Ok (mk_ndarray [1%nat; n]
          (set_nth (repeat F32.zero n) (wrapped_index i n) F32.one)).
Proof.
  intros H. unfold setitem_row0, zeros_1xn; cbn [shape data].
  now rewrite (normalize_index_ok i n H).
Qed.


Lemma shape_last_2 a n : shape_last [a; n] = Ok n.
Proof. reflexivity. Qed.

Lemma backward_run {S} (hook : Tensor -> S -> S) y g s :
  shape g = shape (value y) ->
  backward hook y g s = (Ok tt, run_backward hook (history y) g s).
Proof.
  intros H. unfold backward.
  destruct (list_eq_dec Nat.eq_dec (shape g) (shape (value y)));
    [reflexivity | contradiction].
Qed.

(** The first element of a batch of well-shaped feature maps. *)
Lemma index0_batch {A} (a : ndarray A) n rest :
  shape a = S n :: rest ->
  index0 a 0
  = Ok (mk_ndarray rest (firstn (numel rest) (data a))).
Proof. intros H. unfold index0. rewrite H. reflexivity. Qed.

Lemma first_of_batch_well_shaped {A} (a : ndarray A) n rest :
  shape a = S n :: rest -> well_shaped a ->
  well_shaped (mk_ndarray rest (firstn (numel rest) (data a))).
Proof.
  unfold well_shaped; intros Hs Hl; cbn [shape data].
  rewrite length_firstn, Hl, Hs. cbn [numel fold_right].
  fold (numel rest). nia.
Qed.

Lemma cam_weights_ok g c h w :
  shape g = [c; h; w] ->
  exists ws, GradCam.cam_weights g = Ok ws /\ length (data ws) = c.
Proof.
  intros H. unfold GradCam.cam_weights, np.mean_axis12. rewrite H.
  eexists; split; [reflexivity|]. cbn [data].
  now rewrite length_map, chunks_length.
Qed.

Section Runs.
Variable cast_undefined : F32.t -> Z.
Variable antialias : Image.t -> nat -> nat -> nat -> nat -> Z.

(** On a well-formed query with an index Python accepts, [generate_cam]
    returns a well-shaped array of shape (W, H) with values between 0 and
    1, and leaves the gradient of the hooked activation on the
    extractor. *)
Lemma generate_cam_runs self input_image target_class counterfactual
    H W conv out classes :
  well_formed_query self input_image target_class H W conv out classes ->
  - Z.of_nat classes <= target_class < Z.of_nat classes ->
  exists g cam,
    GradCam.generate_cam cast_undefined antialias input_image target_class
      counterfactual self
    = (Ok cam, GradCam.save_gradient g self) /\
    shape g = shape (value conv) /\
    shape cam = [W; H] /\
    well_shaped cam /\
    Forall (fun v => in_unit_interval v = true) (data cam).
Proof.
  intros [Hlab [b [ch Himg]] HH HW Hfwd (n & c & h & w & Hconv) Hws Hout]
         Hcls.
  unfold GradCam.generate_cam.
  rewrite (bind_lift_Ok _ _ _ _ (torch_tensor1_ok _ Hlab)), bind_get.
  rewrite (bind_lift_Ok _ _ _ _ Hfwd). cbv beta iota.
  rewrite Hout.
  rewrite (bind_lift_Ok _ _ _ _ (shape_last_2 1 classes)).
  rewrite (bind_lift_Ok _ _ _ _ (one_hot_ok _ _ Hcls)).
  (* the backward pass reaches the hook with a gradient shaped as [conv] *)
  pose proof (forward_pass_inv (GradCam.extractor self)
                (mk_Var input_image []) _ _ _ I Hfwd) as Hinv.
  unfold fwd_inv in Hinv; cbn [fst snd] in Hinv.
  destruct Hinv as (Hpb & Hhk & _).
  set (seed := mk_ndarray [1%nat; classes]
                 (set_nth (repeat F32.zero classes)
                    (wrapped_index target_class classes) F32.one)).
  assert (Hseed : shape seed = shape (value out))
    by (rewrite Hout; reflexivity).
  destruct (run_backward_hooked GradCam.save_gradient conv out Hpb Hhk
              seed self Hseed) as (g & Hg & Hrun).
  unfold bind at 1.
  rewrite (backward_run GradCam.save_gradient out seed self Hseed), Hrun.
  rewrite bind_get.
  cbn [GradCam.extractor GradCam.save_gradient CamExtractor.gradients
       CamExtractor.save_gradient dot_data].
  rewrite Hconv in Hg.
  rewrite (bind_lift_Ok _ _ _ _ eq_refl).
  rewrite (bind_lift_Ok _ _ _ _ (index0_batch g n [c; S h; S w] Hg)).
  rewrite (bind_lift_Ok _ _ _ _ eq_refl).
  rewrite (bind_lift_Ok _ _ _ _
             (index0_batch (value conv) n [c; S h; S w] Hconv)).
  pose proof (first_of_batch_well_shaped (value conv) n [c; S h; S w]
                Hconv Hws) as Hwt.
  set (target := mk_ndarray [c; S h; S w]
                   (firstn (numel [c; S h; S w]) (data (value conv))))
    in *.
  set (guided := if counterfactual then _ else _).
  assert (Hgs : shape guided = [c; S h; S w])
    by (subst guided; destruct counterfactual; reflexivity).
  destruct (cam_weights_ok guided c (S h) (S w) Hgs) as (ws & Hws' & Hwl).
  rewrite (bind_lift_Ok _ _ _ _ Hws').
  destruct (cam_accumulate_spec target c (S h) (S w) eq_refl Hwt ws)
    as (cam & Hacc & Hcs & Hcl & _); [lia|].
  rewrite (bind_lift_Ok _ _ _ _ Hacc).
  destruct (cam_normalize_ok cam) as (cam' & Hnorm & Hns & Hnl).
  { intros E. rewrite E in Hcl. simpl in Hcl. lia. }
  rewrite (bind_lift_Ok _ _ _ _ Hnorm).
  set (q := GradCam.cam_quantize cast_undefined cam').
  assert (Hqs : shape q = [S h; S w]) by (subst q; simpl; congruence).
  assert (Hql : length (data q) = (S h * S w)%nat).
  { subst q. unfold GradCam.cam_quantize, np.uint8, map_array; cbn [data].
    rewrite !length_map. congruence. }
  rewrite Himg.
  destruct (cam_resize_shape antialias q (S h) (S w) b ch H W Hqs HH HW)
    as (res & Hres & Hrs & Hrw).
  exists g, res. unfold lift. rewrite Hres.
  split; [reflexivity|]. split; [congruence|]. split; [exact Hrs|].
  split; [exact (Hrw Hql)|].
  apply (cam_resize_unit antialias q [b; ch; H; W] res); [|exact Hres].
  apply cam_quantize_bytes.
Qed.
End Runs.

Lemma demo_init :
  GradCam.init Demo.net 0 None None None = Ok (Demo.grad_cam 0).
Proof. reflexivity. Qed.

Lemma demo_query c :
  (- 2 ^ 63 <= c < 2 ^ 63)%Z ->
  well_formed_query (Demo.grad_cam 0) Demo.image c 2 3
    Demo.conv (Demo.out Demo.conv) 2.
Proof.
  intros Hc. constructor.
  - exact Hc.
  - exists 1%nat, 1%nat; reflexivity.
  - lia.
  - lia.
  - reflexivity.
  - exists 0%nat, 1%nat, 1%nat, 2%nat; reflexivity.
  - reflexivity.
  - reflexivity.
Defined.

(* ------------------------------------------------------------------ *)
(** ** Planes read row by row *)

Local Open Scope nat_scope.





(* ------------------------------------------------------------------ *)
(** ** [generate_cam] in three parts *)

Section Parts.
Variable cast_undefined : F32.t -> Z.
Variable antialias : Image.t -> nat -> nat -> nat -> nat -> Z.

Lemma generate_cam_parts input_image target_class counterfactual self :
  GradCam.generate_cam cast_undefined antialias input_image target_class
    counterfactual self
  = match query_prefix (GradCam.extractor self) input_image target_class
    with
    | Err e => (Err e, self)
    | Ok (conv_output, model_output, one_hot_output) =>
        match backward GradCam.save_gradient model_output one_hot_output
                self with
        | (Err e, self') => (Err e, self')
        | (Ok _, self') =>
            (query_suffix cast_undefined antialias input_image
               counterfactual conv_output
               (CamExtractor.gradients (GradCam.extractor self')),
             self')
        end
    end.
Proof.
  unfold GradCam.generate_cam, query_prefix.
  destruct (torch_tensor1 target_class) as [label|e]; [|reflexivity].
  cbn [rbind]. unfold bind at 1, lift at 1. unfold bind at 1, get at 1.
  unfold bind at 1, lift at 1.
  destruct (CamExtractor.forward_pass (GradCam.extractor self)
              (mk_Var input_image []) label) as [[co out]|e];
    [|reflexivity].
  cbn [rbind]. unfold bind at 1, lift at 1.
  destruct (shape_last (shape (value out))) as [n|e]; [|reflexivity].
  cbn [rbind]. unfold bind at 1, lift at 1.
  destruct (setitem_row0 (zeros_1xn n) target_class F32.one) as [seed|e];
    [|reflexivity].
  cbn [rbind]. unfold bind at 1.
  destruct (backward GradCam.save_gradient out seed self) as [[[]|e] s'];
    [|reflexivity].
  unfold bind at 1, get at 1. unfold query_suffix, bind, lift.
  destruct (dot_data (CamExtractor.gradients (GradCam.extractor s')))
    as [g|e]; [|reflexivity].
  cbn [rbind].
  destruct (index0 g 0) as [gg|e]; [|reflexivity]. cbn [rbind].
  destruct (dot_data co) as [c|e]; [|reflexivity]. cbn [rbind].
  destruct (index0 (value c) 0) as [target|e]; [|reflexivity]. cbn [rbind].
  destruct (GradCam.cam_weights _) as [ws|e]; [|reflexivity]. cbn [rbind].
  destruct (GradCam.cam_accumulate ws target) as [cam|e]; [|reflexivity].
  cbn [rbind].
  destruct (GradCam.cam_normalize cam) as [cam'|e]; reflexivity.
Qed.
End Parts.

Lemma save_gradient_twice g1 g2 self :
  GradCam.save_gradient g2 (GradCam.save_gradient g1 self)
  = GradCam.save_gradient g2 self.
Proof. reflexivity. Qed.

(** The prefix does not read [gradients]. *)
Lemma query_prefix_save_gradient g self input_image target_class :
  query_prefix (GradCam.extractor (GradCam.save_gradient g self))
    input_image target_class
  = query_prefix (GradCam.extractor self) input_image target_class.
Proof. reflexivity. Qed.



(** Whatever [generate_cam] returns holds values between 0 and 1: it comes
    out of the division of bytes by 255. *)
Lemma query_suffix_unit cast_undefined antialias input_image counterfactual
    conv_output gradients cam :
  query_suffix cast_undefined antialias input_image counterfactual
    conv_output gradients = Ok cam ->
  Forall (fun v => in_unit_interval v = true) (data cam).
Proof.
  unfold query_suffix.
  destruct (dot_data gradients) as [g|e]; [|discriminate]. cbn [rbind].
  destruct (index0 g 0) as [gg|e]; [|discriminate]. cbn [rbind].
  destruct (dot_data conv_output) as [c|e]; [|discriminate]. cbn [rbind].
  destruct (index0 (value c) 0) as [target|e]; [|discriminate]. cbn [rbind].
  destruct (GradCam.cam_weights _) as [ws|e]; [|discriminate]. cbn [rbind].
  destruct (GradCam.cam_accumulate ws target) as [acc|e]; [|discriminate].
  cbn [rbind].
  destruct (GradCam.cam_normalize acc) as [norm|e]; [|discriminate].
  cbn [rbind]. apply cam_resize_unit, cam_quantize_bytes.
Qed.

Lemma generate_cam_returns_unit cast_undefined antialias input_image
    target_class counterfactual self cam self' :
  GradCam.generate_cam cast_undefined antialias input_image target_class
    counterfactual self = (Ok cam, self') ->
  Forall (fun v => in_unit_interval v = true) (data cam).
Proof.
  rewrite generate_cam_parts.
  destruct (query_prefix _ _ _) as [[[co out] seed]|e]; [|discriminate].
  destruct (backward _ _ _ _) as [[[]|e] s']; [|discriminate].
  intros E. inversion E as [[Hs Hst]].
  apply (query_suffix_unit _ _ _ _ _ _ _ Hs).
Qed.

(* ------------------------------------------------------------------ *)
(** ** The order of the floats, and a map whose maximum equals its minimum *)

Local Open Scope Z_scope.

Lemma leb_lex_le x y :
  F32.leb x y = true <->
  F32.is_nan x = false /\ F32.is_nan y = false /\
  lex_le (order_key x) (order_key y).
Proof.
  unfold F32.leb, SFleb.
  destruct x as [sx|sx| |sx mx ex], y as [sy|sy| |sy my ey];
    try destruct sx; try destruct sy; cbn;
    try (split; [intros H; try discriminate; repeat split; lia
                | intros (H1 & H2 & H3); try discriminate; try reflexivity;
                  lia]).
  all: change (Pos.compare_cont Eq ?a ?b) with (Pos.compare a b).
  - destruct (Z.compare_spec ex ey); try destruct (Pos.compare_spec mx my);
      cbn; (split; [intros H'; try discriminate; repeat split; lia
                   | intros (H1 & H2 & H3); try reflexivity; lia]).
  - destruct (Z.compare_spec ex ey); try destruct (Pos.compare_spec mx my);
      cbn; (split; [intros H'; try discriminate; repeat split; lia
                   | intros (H1 & H2 & H3); try reflexivity; lia]).
Qed.

Lemma leb_trans x y z :
  F32.leb x y = true -> F32.leb y z = true -> F32.leb x z = true.
Proof.
  rewrite !leb_lex_le. intros (Hx & Hy & H1) (_ & Hz & H2).
  repeat split; auto. unfold lex_le in *.
  destruct (order_key x) as [[a b] c], (order_key y) as [[a' b'] c'],
           (order_key z) as [[a'' b''] c'']. lia.
Qed.

Lemma leb_total x y :
  F32.is_nan x = false -> F32.is_nan y = false ->
  F32.leb x y = false -> F32.leb y x = true.
Proof.
  intros Hx Hy H. apply leb_lex_le. repeat split; auto.
  destruct (F32.leb x y) eqn:E; [discriminate|].
  assert (Hn : ~ lex_le (order_key x) (order_key y)).
  { intros Hl. assert (F32.leb x y = true) by (apply leb_lex_le; auto).
    congruence. }
  unfold lex_le in *.
  destruct (order_key x) as [[a b] c], (order_key y) as [[a' b'] c']. lia.
Qed.

Lemma leb_not_nan x y :
  F32.leb x y = true -> F32.is_nan x = false /\ F32.is_nan y = false.
Proof. rewrite leb_lex_le. tauto. Qed.

(** Floats that compare equal have a difference that is a zero or NaN. *)
Lemma sub_of_equal x y :
  F32.leb x y = true -> F32.leb y x = true ->
  F32.sub x y = S754_nan \/ exists s, F32.sub x y = S754_zero s.
Proof.
  rewrite !leb_lex_le. intros (_ & _ & H1) (_ & _ & H2).
  destruct x as [sx|sx| |sx mx ex], y as [sy|sy| |sy my ey];
    try destruct sx; try destruct sy; cbn in H1, H2; try lia;
    try (left; reflexivity);
    try (right; eexists; reflexivity).
  - assert (ex = ey) by lia. assert (mx = my) by lia. subst.
    right. exists false. unfold F32.sub, SFsub.
    rewrite Z.sub_diag. reflexivity.
  - assert (ex = ey) by lia. assert (mx = my) by lia. subst.
    right. exists false. unfold F32.sub, SFsub.
    rewrite Z.sub_diag. reflexivity.
Qed.

Lemma div_degenerate a b :
  (a = S754_nan \/ exists s, a = S754_zero s) ->
  (b = S754_nan \/ exists s, b = S754_zero s) ->
  F32.div a b = S754_nan.
Proof.
  intros [->|[s ->]] [->|[s' ->]]; reflexivity.
Qed.

Lemma fminimum_cases x a :
  (np.fminimum x a = x /\ (F32.leb x a = true \/ F32.is_nan x = true)) \/
  (np.fminimum x a = a /\ F32.leb x a = false /\ F32.is_nan x = false).
Proof.
  unfold np.fminimum.
  destruct (F32.leb x a); [left; auto|].
  destruct (F32.is_nan x); [left; auto | right; auto].
Qed.

Lemma fmaximum_cases x a :
  (np.fmaximum x a = x /\ (F32.leb a x = true \/ F32.is_nan x = true)) \/
  (np.fmaximum x a = a /\ F32.leb a x = false /\ F32.is_nan x = false).
Proof.
  unfold np.fmaximum.
  destruct (F32.leb a x); [left; auto|].
  destruct (F32.is_nan x); [left; auto | right; auto].
Qed.

Lemma leb_refl x : F32.is_nan x = false -> F32.leb x x = true.
Proof.
  intros H. apply leb_lex_le. repeat split; auto. unfold lex_le.
  destruct (order_key x) as [[p q] r]. lia.
Qed.

(** The running minimum is below, and the running maximum above, every
    element seen, unless it is NaN. *)
Lemma fold_fminimum_lower l : forall x0,
  F32.is_nan (fold_left np.fminimum l x0) = false ->
  forall y, In y (x0 :: l) -> F32.leb (fold_left np.fminimum l x0) y = true.
Proof.
  induction l as [|a l IH]; intros x0 Hn y Hy.
  - destruct Hy as [<-|[]]. apply leb_refl, Hn.
  - cbn [fold_left] in *.
    pose proof (IH _ Hn) as Hall.
    assert (H0 : F32.leb (fold_left np.fminimum l (np.fminimum x0 a))
                         (np.fminimum x0 a) = true)
      by (apply Hall; left; reflexivity).
    destruct (leb_not_nan _ _ H0) as [_ Hm].
    destruct (fminimum_cases x0 a) as [[Em [E|E]] | (Em & E & Ex)];
      rewrite Em in *.
    + destruct Hy as [<-|[<-|Hy]].
      * exact H0.
      * apply (leb_trans _ x0); assumption.
      * apply Hall; right; assumption.
    + congruence.
    + destruct Hy as [<-|[<-|Hy]].
      * apply (leb_trans _ a); [assumption|].
        apply leb_total; assumption.
      * exact H0.
      * apply Hall; right; assumption.
Qed.

Lemma fold_fmaximum_upper l : forall x0,
  F32.is_nan (fold_left np.fmaximum l x0) = false ->
  forall y, In y (x0 :: l) -> F32.leb y (fold_left np.fmaximum l x0) = true.
Proof.
  induction l as [|a l IH]; intros x0 Hn y Hy.
  - destruct Hy as [<-|[]]. apply leb_refl, Hn.
  - cbn [fold_left] in *.
    pose proof (IH _ Hn) as Hall.
    assert (H0 : F32.leb (np.fmaximum x0 a)
                   (fold_left np.fmaximum l (np.fmaximum x0 a)) = true)
      by (apply Hall; left; reflexivity).
    destruct (leb_not_nan _ _ H0) as [Hm _].
    destruct (fmaximum_cases x0 a) as [[Em [E|E]] | (Em & E & Ex)];
      rewrite Em in *.
    + destruct Hy as [<-|[<-|Hy]].
      * exact H0.
      * apply (leb_trans _ x0); assumption.
      * apply Hall; right; assumption.
    + congruence.
    + destruct Hy as [<-|[<-|Hy]].
      * apply (leb_trans _ a); [|assumption].
        apply leb_total; assumption.
      * exact H0.
      * apply Hall; right; assumption.
Qed.

Lemma eqb_leb a b :
  SFeqb a b = true -> F32.leb a b = true /\ F32.leb b a = true.
Proof.
  unfold SFeqb, F32.leb, SFleb.
  destruct a as [sa|sa| |sa ma ea], b as [sb|sb| |sb mb eb];
    try destruct sa; try destruct sb; cbn; try discriminate; auto.
  all: change (Pos.compare_cont Eq ?a ?b) with (Pos.compare a b).
  all: destruct (Z.compare_spec ea eb); try discriminate; subst;
       rewrite Z.compare_refl;
       destruct (Pos.compare_spec ma mb); try discriminate; subst;
       rewrite Pos.compare_refl; auto.
Qed.

(* ================================================================== *)
(** * The claims *)

Local Open Scope nat_scope.

(** C1.  On a well-formed query for a class index from 0 to classes - 1,
    with an input image of shape (b, ch, H, W), [generate_cam] returns a
    well-shaped 2-D array whose shape is (W, H): the width of the image
    comes first and its height second.  [resize] is given
    (shape[2], shape[3]) = (H, W) where it reads (width, height), and the
    array made from the resized image has shape (height, width). *)
Theorem generate_cam_shape cast_undefined antialias self input_image
    target_class counterfactual H W conv out classes :
  well_formed_query self input_image target_class H W conv out classes ->
  (0 <= target_class < Z.of_nat classes)%Z ->
  exists cam self',
    GradCam.generate_cam cast_undefined antialias input_image target_class
      counterfactual self = (Ok cam, self') /\
    shape cam = [W; H] /\
    well_shaped cam.
Proof.
  intros Hq Hc.
  destruct (generate_cam_runs cast_undefined antialias self input_image
              target_class counterfactual H W conv out classes Hq)
    as (g & cam & Hrun & _ & Hs & Hw & _); [lia|].
  exists cam, (GradCam.save_gradient g self); auto.
Qed.

(** C1 on the 2 by 3 image of [Demo]: the array returned has shape
    (3, 2). *)
Lemma generate_cam_shape_witness :
  exists cam self',
    GradCam.generate_cam (Demo.cast_to 0) Demo.nearest Demo.image 0 false
      (Demo.grad_cam 0) = (Ok cam, self') /\
    shape cam = [3; 2] /\
    well_shaped cam.
Proof.
  apply (generate_cam_shape (Demo.cast_to 0) Demo.nearest (Demo.grad_cam 0)
           Demo.image 0 false 2 3 Demo.conv (Demo.out Demo.conv) 2).
  - apply demo_query. lia.
  - lia.
Defined.

(** C2.  When the maximum of the rectified accumulator equals its minimum,
    line 136 divides a zero by a zero (or a NaN by a NaN) at every element:
    [cam_normalize] raises nothing and returns an array of the same shape
    filled with NaN, which then goes to the conversion to [uint8]. *)
Theorem cam_normalize_degenerate cam mn mx :
  np.amin cam = Ok mn ->
  np.amax cam = Ok mx ->
  SFeqb mx mn = true ->
  GradCam.cam_normalize cam
  = Ok (mk_ndarray (shape cam) (map (fun _ => S754_nan) (data cam))).
Proof.
  intros Hmin Hmax Heq.
  destruct (eqb_leb _ _ Heq) as [Hxn Hnx].
  destruct (leb_not_nan _ _ Hxn) as [Hx Hn].
  unfold GradCam.cam_normalize. rewrite Hmin, Hmax. cbn [rbind].
  unfold map_array. f_equal. f_equal.
  unfold np.amin, np.amax in Hmin, Hmax.
  destruct (data cam) as [|x0 l] eqn:Hd; [discriminate|].
  inversion Hmin as [Emin]; inversion Hmax as [Emax].
  apply map_ext_in. intros y Hy.
  assert (Hlow : F32.leb mn y = true).
  { rewrite <- Emin. apply fold_fminimum_lower; [rewrite Emin|]; assumption. }
  assert (Hup : F32.leb y mx = true).
  { rewrite <- Emax. apply fold_fmaximum_upper; [rewrite Emax|]; assumption. }
  rewrite Emin, Emax.
  apply div_degenerate; apply sub_of_equal; auto.
  apply (leb_trans _ mx); assumption.
Qed.

(** C2 on the accumulator of the specification's scenario, 2.0
    everywhere. *)
Lemma cam_normalize_degenerate_witness :
  GradCam.cam_normalize (mk_ndarray [3; 3] (repeat (F32.of_Z 2) 9))
  = Ok (mk_ndarray [3; 3] (repeat S754_nan 9)).
Proof.
  apply (cam_normalize_degenerate
           (mk_ndarray [3; 3] (repeat (F32.of_Z 2) 9))
           (F32.of_Z 2) (F32.of_Z 2)); reflexivity.
Defined.

(** With an all-zero gradient (class 1 of [Demo]), the map returned is
    whatever the machine makes of NaN as a byte: 0.0 everywhere on one
    that gives 0, 1.0 everywhere on one that gives 255. *)
Example degenerate_query_follows_the_cast :
  fst (GradCam.generate_cam (Demo.cast_to 0) Demo.nearest Demo.image 1 false
         (Demo.grad_cam 0))
  = Ok (mk_ndarray [3; 2] (repeat F64.zero 6)) /\
  fst (GradCam.generate_cam (Demo.cast_to 255) Demo.nearest Demo.image 1 false
         (Demo.grad_cam 0))
  = Ok (mk_ndarray [3; 2] (repeat F64.one 6)).
Proof. split; vm_compute; reflexivity. Qed.




(** C4.  Every array [generate_cam] returns, for whatever class index, has
    all its values [v] with 0 <= v and v <= 1 as 64-bit floats; and on a
    well-formed query for a class index from 0 to classes - 1 it does
    return an array. *)
Theorem generate_cam_unit_interval cast_undefined antialias self input_image
    target_class counterfactual :
  (forall cam self',
     GradCam.generate_cam cast_undefined antialias input_image target_class
       counterfactual self = (Ok cam, self') ->
     Forall (fun v => F64.leb F64.zero v = true /\ F64.leb v F64.one = true)
            (data cam)) /\
  (forall H W conv out classes,
     well_formed_query self input_image target_class H W conv out classes ->
     (0 <= target_class < Z.of_nat classes)%Z ->
     exists cam self',
       GradCam.generate_cam cast_undefined antialias input_image target_class
         counterfactual self = (Ok cam, self')).
Proof.
  split.
  - intros cam self' Hrun.
    pose proof (generate_cam_returns_unit _ _ _ _ _ _ _ _ Hrun) as Hu.
    revert Hu. apply Forall_impl. intros v Hv.
    apply andb_true_iff. exact Hv.
  - intros H W conv out classes Hq Hc.
    destruct (generate_cam_runs cast_undefined antialias self input_image
                target_class counterfactual H W conv out classes Hq)
      as (g & cam & Hrun & _); [lia|].
    exists cam, (GradCam.save_gradient g self). exact Hrun.
Qed.

(** C4 on the image of [Demo], with the sign of the gradient inverted. *)
Lemma generate_cam_unit_interval_witness :
  exists cam self',
    GradCam.generate_cam (Demo.cast_to 0) Demo.nearest Demo.image 0 true
      (Demo.grad_cam 0) = (Ok cam, self') /\
    Forall (fun v => F64.leb F64.zero v = true /\ F64.leb v F64.one = true)
           (data cam).
Proof.
  destruct (generate_cam_unit_interval (Demo.cast_to 0) Demo.nearest
              (Demo.grad_cam 0) Demo.image 0 true) as [Hall Hrun].
  destruct (Hrun 2 3 Demo.conv (Demo.out Demo.conv) 2) as (cam & self' & E).
  - apply demo_query. lia.
  - lia.
  - exists cam, self'. split; [exact E | exact (Hall cam self' E)].
Defined.





(** In that scenario the accumulator is 2.0 everywhere. *)
Example cam_accumulate_scenario :
  GradCam.cam_accumulate weights_1_0 activation_2_3_3
  = Ok (mk_ndarray [3; 3] (repeat (F32.of_Z 2) 9)).
Proof. reflexivity. Qed.




(** C8.  Without a separate head, [GradCam] takes the last child of the
    model as head and the children before it, in their order, as body;
    with one, it keeps the model's children as body.  Both are put in
    evaluation mode.  A label-feeding flag that is not given is true
    exactly when a separate head is. *)
Theorem init_head_separation model target_layer device feed_target
    body last_child separate_head :
  children model = body ++ [last_child] ->
  (exists gc,
     GradCam.init model target_layer None device feed_target = Ok gc /\
     GradCam.separate_head gc = eval last_child /\
     CamExtractor.head (GradCam.extractor gc) = eval last_child /\
     children (GradCam.model gc) = map eval body /\
     children (CamExtractor.model (GradCam.extractor gc)) = map eval body /\
     CamExtractor.feed_target (GradCam.extractor gc)
     = match feed_target with Some b => b | None => false end) /\
  (exists gc,
     GradCam.init model target_layer (Some separate_head) device feed_target
     = Ok gc /\
     GradCam.separate_head gc = eval separate_head /\
     CamExtractor.head (GradCam.extractor gc) = eval separate_head /\
     children (GradCam.model gc) = map eval (children model) /\
     children (CamExtractor.model (GradCam.extractor gc))
     = map eval (children model) /\
     CamExtractor.feed_target (GradCam.extractor gc)
     = match feed_target with Some b => b | None => true end).
Proof.
  intros Hc. split.
  - assert (Hl : GradCam.last_child (children model) = Ok last_child).
    { rewrite Hc. unfold GradCam.last_child.
      destruct body as [|m body]; [reflexivity|].
      cbn [app]. f_equal. apply last_last. }
    unfold GradCam.init. rewrite Hl. cbn [rbind].
    rewrite Hc, removelast_last.
    eexists; split; [reflexivity|].
    cbn. repeat split.
  - unfold GradCam.init. cbn [rbind].
    eexists; split; [reflexivity|].
    cbn. repeat split.
Qed.

(** C8 on the network of [Demo]. *)
Lemma init_head_separation_witness :
  (exists gc,
     GradCam.init Demo.net 0 None None None = Ok gc /\
     GradCam.separate_head gc = eval Demo.head /\
     CamExtractor.head (GradCam.extractor gc) = eval Demo.head /\
     children (GradCam.model gc) = map eval [Demo.identity_layer] /\
     children (CamExtractor.model (GradCam.extractor gc))
     = map eval [Demo.identity_layer] /\
     CamExtractor.feed_target (GradCam.extractor gc) = false) /\
  (exists gc,
     GradCam.init Demo.net 0 (Some Demo.head) None None = Ok gc /\
     GradCam.separate_head gc = eval Demo.head /\
     CamExtractor.head (GradCam.extractor gc) = eval Demo.head /\
     children (GradCam.model gc) = map eval (children Demo.net) /\
     children (CamExtractor.model (GradCam.extractor gc))
     = map eval (children Demo.net) /\
     CamExtractor.feed_target (GradCam.extractor gc) = true).
Proof.
  apply (init_head_separation Demo.net 0 None None
           [Demo.identity_layer] Demo.head Demo.head).
  reflexivity.
Defined.

(** C9.  A second call of [generate_cam] with the same arguments, made on
    the object as the first call has left it, gives what the first call
    gave, whatever [gradients] an earlier query had left behind: the same
    array or the same exception, and the same object state. *)
Theorem generate_cam_idempotent cast_undefined antialias input_image
    target_class counterfactual self :
  GradCam.generate_cam cast_undefined antialias input_image target_class
    counterfactual
    (snd (GradCam.generate_cam cast_undefined antialias input_image
            target_class counterfactual self))
  = GradCam.generate_cam cast_undefined antialias input_image target_class
      counterfactual self.
Proof.
  rewrite (generate_cam_parts _ _ _ _ _ self).
  destruct (query_prefix (GradCam.extractor self) input_image target_class)
    as [[[co out] seed]|e] eqn:E.
  - unfold backward.
    destruct (list_eq_dec Nat.eq_dec (shape seed) (shape (value out)))
      as [Hs|Hs] eqn:Hd.
    + destruct (run_backward_cases GradCam.save_gradient save_gradient_twice
                  (history out) seed) as [Hrun | [g Hrun]].
      * rewrite Hrun. cbn [snd].
        rewrite generate_cam_parts, E. unfold backward.
        rewrite Hd, Hrun. reflexivity.
      * rewrite Hrun. cbn [snd].
        rewrite generate_cam_parts, query_prefix_save_gradient, E.
        unfold backward. rewrite Hd, Hrun, save_gradient_twice. reflexivity.
    + cbn [snd]. rewrite generate_cam_parts, E. unfold backward.
      rewrite Hd. reflexivity.
  - cbn [snd]. rewrite generate_cam_parts, E. reflexivity.
Qed.




(* ================================================================== *)
(** * Further properties of the code *)

(* ------------------------------------------------------------------ *)
(** ** The forward pass as a composition *)



Section ForwardValues.
Variable self : CamExtractor.t.
Variable x0 : Tensor.



End ForwardValues.







(* ------------------------------------------------------------------ *)
(** ** What a query leaves behind, and what it needs to succeed *)

Lemma query_prefix_inv ext input_image target_class co out seed :
  query_prefix ext input_image target_class = Ok (co, out, seed) ->
  (- 2 ^ 63 <= target_class < 2 ^ 63)%Z /\
  CamExtractor.forward_pass ext (mk_Var input_image [])
    (mk_ndarray [1] [target_class]) = Ok (co, out) /\
  exists n,
    shape_last (shape (value out)) = Ok n /\
    setitem_row0 (zeros_1xn n) target_class F32.one = Ok seed.
Proof.
  unfold query_prefix, torch_tensor1.
  destruct ((- 2 ^ 63 <=? target_class) && (target_class <? 2 ^ 63))%Z
    eqn:E; cbn [rbind]; [|discriminate].
  apply andb_true_iff in E. destruct E as [E1 E2].
  apply Z.leb_le in E1. apply Z.ltb_lt in E2.
  destruct (CamExtractor.forward_pass _ _ _) as [[co' out']|e];
    cbn [rbind]; [|discriminate].
  destruct (shape_last (shape (value out'))) as [n|e] eqn:Hn;
    cbn [rbind]; [|discriminate].
  destruct (setitem_row0 (zeros_1xn n) target_class F32.one) as [sd|e]
    eqn:Hs; cbn [rbind]; [|discriminate].
  intros H. inversion H; subst.
  split; [lia|]. split; [reflexivity|]. exists n. auto.
Qed.

Lemma normalize_index_inv i n k :
  normalize_index i n = Ok k ->
  (- Z.of_nat n <= i < Z.of_nat n)%Z.
Proof.
  unfold normalize_index.
  destruct ((0 <=? i) && (i <? Z.of_nat n))%Z eqn:E1.
  - apply andb_true_iff in E1. destruct E1 as [E E'].
    apply Z.leb_le in E. apply Z.ltb_lt in E'. intros _. lia.
  - destruct ((- Z.of_nat n <=? i) && (i <? 0))%Z eqn:E2; [|discriminate].
    apply andb_true_iff in E2. destruct E2 as [E E'].
    apply Z.leb_le in E. apply Z.ltb_lt in E'. intros _. lia.
Qed.

Lemma setitem_row0_inv n i v seed :
  setitem_row0 (zeros_1xn n) i v = Ok seed ->
  (- Z.of_nat n <= i < Z.of_nat n)%Z /\ shape seed = [1; n].
Proof.
  unfold setitem_row0, zeros_1xn. cbn [shape data].
  destruct (normalize_index i n) as [k|e] eqn:E; cbn [rbind];
    [|discriminate].
  intros H. inversion H; subst. split; [|reflexivity].
  apply (normalize_index_inv _ _ _ E).
Qed.



(** X5.  [generate_cam] returns an array only if the target layer is a
    position of the body, the class index fits a 64-bit label, the head
    answers with exactly one row of scores, and the class index is one
    Python accepts for that row. *)
Theorem generate_cam_success_requires cast_undefined antialias input_image
    target_class counterfactual self cam self' :
  GradCam.generate_cam cast_undefined antialias input_image target_class
    counterfactual self = (Ok cam, self') ->
  (0 <= CamExtractor.target_layer (GradCam.extractor self)
   < Z.of_nat (length (children (CamExtractor.model
                                   (GradCam.extractor self)))))%Z /\
  (- 2 ^ 63 <= target_class < 2 ^ 63)%Z /\
  exists conv out classes,
    CamExtractor.forward_pass (GradCam.extractor self)
      (mk_Var input_image []) (mk_ndarray [1] [target_class])
    = Ok (Some conv, out) /\
    shape (value out) = [1; classes] /\
    (- Z.of_nat classes <= target_class < Z.of_nat classes)%Z.
Proof.
  rewrite generate_cam_parts.
  destruct (query_prefix _ _ _) as [[[co out] seed]|e] eqn:E; [|discriminate].
  destruct (query_prefix_inv _ _ _ _ _ _ E) as (Hl & Hf & n & Hn & Hs).
  destruct (setitem_row0_inv _ _ _ _ Hs) as [Hc Hshape].
  unfold backward.
  destruct (list_eq_dec Nat.eq_dec (shape seed) (shape (value out)))
    as [Heq|Heq]; [|discriminate].
  intros H. inversion H as [[Hsuf Hst]]. clear H.
  assert (Hco : exists conv, co = Some conv).
  { destruct co as [conv|]; [exists conv; reflexivity|].
    exfalso. unfold query_suffix in Hsuf.
    destruct (dot_data (CamExtractor.gradients _)) as [g|e];
      cbn [rbind] in Hsuf; [|discriminate].
    destruct (index0 g 0) as [gg|e]; cbn [rbind] in Hsuf; discriminate. }
  destruct Hco as [conv ->].
  pose proof (forward_pass_inv (GradCam.extractor self)
                (mk_Var input_image []) _ _ _ I Hf) as Hinv.
  unfold fwd_inv in Hinv; cbn [fst snd] in Hinv.
  destruct Hinv as (_ & _ & Hr).
  split; [exact Hr|]. split; [exact Hl|].
  exists conv, out, n. split; [exact Hf|]. split; [congruence | exact Hc].
Qed.

(** The query for class 0 on the network of [Demo] returns. *)
Lemma demo_run :
  exists cam self',
    GradCam.generate_cam (Demo.cast_to 0) Demo.nearest Demo.image 0 false
      (Demo.grad_cam 0) = (Ok cam, self').
Proof.
  destruct (generate_cam_runs (Demo.cast_to 0) Demo.nearest (Demo.grad_cam 0)
              Demo.image 0 false 2 3 Demo.conv (Demo.out Demo.conv) 2)
    as (g & cam & E & _).
  - apply demo_query. lia.
  - lia.
  - exists cam, (GradCam.save_gradient g (Demo.grad_cam 0)). exact E.
Defined.

(** X5 on the network of [Demo]. *)
Lemma generate_cam_success_requires_witness :
  (0 <= CamExtractor.target_layer (GradCam.extractor (Demo.grad_cam 0))
   < Z.of_nat (length (children (CamExtractor.model
                                   (GradCam.extractor (Demo.grad_cam 0))))))%Z /\
  (- 2 ^ 63 <= 0 < 2 ^ 63)%Z /\
  exists conv out classes,
    CamExtractor.forward_pass (GradCam.extractor (Demo.grad_cam 0))
      (mk_Var Demo.image []) (mk_ndarray [1] [0%Z])
    = Ok (Some conv, out) /\
    shape (value out) = [1; classes] /\
    (- Z.of_nat classes <= 0 < Z.of_nat classes)%Z.
Proof.
  destruct demo_run as (cam & self' & E).
  exact (generate_cam_success_requires (Demo.cast_to 0) Demo.nearest
           Demo.image 0 false (Demo.grad_cam 0) cam self' E).
Defined.

(* ------------------------------------------------------------------ *)
(** ** The values of the returned array *)

Lemma cam_resize_quantized antialias cam input_shape out :
  Forall byte (data cam) ->
  GradCam.cam_resize antialias cam input_shape = Ok out ->
  Forall byte_over_255 (data out).
Proof.
  intros Hb. unfold GradCam.cam_resize, Image.fromarray.
  destruct (shape cam) as [|h [|w [|? ?]]]; cbn [rbind];
    try (intros; discriminate).
  destruct (shape_at input_shape 2) as [s2|]; cbn [rbind];
    [|intros; discriminate].
  destruct (shape_at input_shape 3) as [s3|]; cbn [rbind];
    [|intros; discriminate].
  destruct (Image.resize antialias (Image.mk w h (data cam)) (s2, s3))
    as [im'|] eqn:E; cbn [rbind]; [|intros; discriminate].
  intros E'; inversion E'; subst; clear E'.
  unfold np.div255, map_array, Image.toarray; cbn [data].
  apply Forall_map.
  pose proof (resize_bytes _ _ _ _ E Hb) as Hp. cbn in Hp.
  revert Hp. apply Forall_impl. intros z Hz. exists z. split; auto.
Qed.

(** X6.  Every value of an array [generate_cam] returns is a byte divided
    by 255 in double precision: the map takes at most 256 different
    values, whatever the filter that resizes it. *)
Theorem generate_cam_values_quantized cast_undefined antialias input_image
    target_class counterfactual self cam self' :
  GradCam.generate_cam cast_undefined antialias input_image target_class
    counterfactual self = (Ok cam, self') ->
  Forall byte_over_255 (data cam).
Proof.
  rewrite generate_cam_parts.
  destruct (query_prefix _ _ _) as [[[co out] seed]|e]; [|discriminate].
  destruct (backward _ _ _ _) as [[[]|e] s']; [|discriminate].
  intros E. inversion E as [[Hs Hst]]. clear E. revert Hs.
  unfold query_suffix.
  destruct (dot_data (CamExtractor.gradients _)) as [g|e];
    [|discriminate]. cbn [rbind].
  destruct (index0 g 0) as [gg|e]; [|discriminate]. cbn [rbind].
  destruct (dot_data co) as [c|e]; [|discriminate]. cbn [rbind].
  destruct (index0 (value c) 0) as [target|e]; [|discriminate]. cbn [rbind].
  destruct (GradCam.cam_weights _) as [ws|e]; [|discriminate]. cbn [rbind].
  destruct (GradCam.cam_accumulate ws target) as [acc|e]; [|discriminate].
  cbn [rbind].
  destruct (GradCam.cam_normalize acc) as [norm|e]; [|discriminate].
  cbn [rbind]. apply cam_resize_quantized, cam_quantize_bytes.
Qed.

(** X6 on the network of [Demo]. *)
Lemma generate_cam_values_quantized_witness :
  exists cam self',
    GradCam.generate_cam (Demo.cast_to 0) Demo.nearest Demo.image 0 false
      (Demo.grad_cam 0) = (Ok cam, self') /\
    Forall byte_over_255 (data cam).
Proof.
  destruct demo_run as (cam & self' & E).
  exists cam, self'. split; [exact E|].
  exact (generate_cam_values_quantized (Demo.cast_to 0) Demo.nearest
           Demo.image 0 false (Demo.grad_cam 0) cam self' E).
Defined.

(* ------------------------------------------------------------------ *)
(** ** Construction *)

(** X7.  [GradCam(...)] raises only when no separate head is given and the
    model has no children, and then with the IndexError of taking the last
    element of an empty list.  Otherwise the head and every child of the
    body are in evaluation mode, the extractor is built on that same body
    and head with the given target layer, it holds no gradient yet, and
    the device is kept. *)
Theorem init_result model target_layer separate_head device feed_target :
  match GradCam.init model target_layer separate_head device feed_target with
  | Err e =>
      e = IndexError (-1) 0 /\ separate_head = None /\ children model = []
  | Ok gc =>
      (separate_head = None -> children model <> []) /\
      training (GradCam.separate_head gc) = false /\
      Forall (fun m => training m = false) (children (GradCam.model gc)) /\
      CamExtractor.model (GradCam.extractor gc) = GradCam.model gc /\
      CamExtractor.head (GradCam.extractor gc) = GradCam.separate_head gc /\
      CamExtractor.target_layer (GradCam.extractor gc) = target_layer /\
      CamExtractor.gradients (GradCam.extractor gc) = None /\
      GradCam.device gc = device
  end.
Proof.
  assert (Hev : forall l, Forall (fun m => training m = false) (map eval l)).
  { intros l. apply Forall_map, Forall_forall. intros m _. reflexivity. }
  unfold GradCam.init. destruct separate_head as [h|].
  - cbn. repeat split; try discriminate. apply Hev.
  - destruct (children model) as [|m l] eqn:Hc; cbn.
    + repeat split.
    + repeat split; try discriminate. apply Hev.
Qed.

(* ------------------------------------------------------------------ *)
(** ** The seed *)

Lemma set_nth_length {A} (l : list A) : forall k v,
  length (set_nth l k v) = length l.
Proof.
  induction l as [|x l IH]; intros [|k] v; cbn; auto.
Qed.

Lemma set_nth_nth {A} (d : A) (l : list A) : forall k v j,
  k < length l ->
  nth j (set_nth l k v) d = if j =? k then v else nth j l d.
Proof.
  induction l as [|x l IH]; intros [|k] v [|j] H; cbn in *; try lia; auto.
  apply IH; lia.
Qed.

Lemma wrapped_index_mod i n :
  (- Z.of_nat n <= i < Z.of_nat n)%Z ->
  Z.of_nat (wrapped_index i n) = (i mod Z.of_nat n)%Z.
Proof.
  intros H. unfold wrapped_index.
  destruct (Z.ltb_spec i 0) as [Hn|Hn].
  - rewrite Z2Nat.id by lia.
    rewrite <- (Z.mod_small (Z.of_nat n + i) (Z.of_nat n)) by lia.
    rewrite Z.add_comm.
    rewrite <- (Z.mul_1_l (Z.of_nat n)) at 1.
    apply Z.mod_add. lia.
  - rewrite Z2Nat.id by lia. symmetry. apply Z.mod_small. lia.
Qed.

(** X8.  For a class index Python accepts for [classes] scores, the seed
    of lines 113 and 114 is one row of [classes] numbers with 1.0 at the
    position [target_class mod classes] and 0.0 everywhere else. *)
Theorem one_hot_seed classes target_class :
  (- Z.of_nat classes <= target_class < Z.of_nat classes)%Z ->
  exists seed,
    setitem_row0 (zeros_1xn classes) target_class F32.one = Ok seed /\
    shape seed = [1; classes] /\
    length (data seed) = classes /\
    forall j, j < classes ->
      nth j (data seed) S754_nan
      = if (Z.of_nat j =? target_class mod Z.of_nat classes)%Z
        then F32.one else F32.zero.
Proof.
  intros H. rewrite (one_hot_ok _ _ H). eexists. split; [reflexivity|].
  cbn [shape data]. split; [reflexivity|].
  split; [now rewrite set_nth_length, repeat_length|].
  intros j Hj.
  assert (Hk : wrapped_index target_class classes < classes).
  { pose proof (wrapped_index_mod _ _ H) as Hm.
    pose proof (Z.mod_pos_bound target_class (Z.of_nat classes)). lia. }
  rewrite set_nth_nth by (now rewrite repeat_length).
  rewrite <- (wrapped_index_mod _ _ H).
  destruct (Nat.eqb_spec j (wrapped_index target_class classes)) as [E|E].
  - replace (Z.of_nat j =? Z.of_nat (wrapped_index target_class classes))%Z
      with true by (symmetry; apply Z.eqb_eq; lia). reflexivity.
  - replace (Z.of_nat j =? Z.of_nat (wrapped_index target_class classes))%Z
      with false by (symmetry; apply Z.eqb_neq; lia).
    apply repeat_nth_lt. exact Hj.
Qed.

(** X8 for the last of three classes, written as -1. *)
Lemma one_hot_seed_witness :
  exists seed,
    setitem_row0 (zeros_1xn 3) (-1) F32.one = Ok seed /\
    shape seed = [1; 3] /\
    length (data seed) = 3 /\
    forall j, j < 3 ->
      nth j (data seed) S754_nan
      = if (Z.of_nat j =? (-1) mod Z.of_nat 3)%Z then F32.one else F32.zero.
Proof. apply (one_hot_seed 3 (-1)). lia. Defined.

(* ------------------------------------------------------------------ *)
(** ** The seed against the head's answer *)



(* ------------------------------------------------------------------ *)
(** ** Weights that vanish *)

Lemma mul_zero_finite x a :
  is_zero x -> is_finite a -> is_zero (F32.mul x a).
Proof.
  destruct x as [sx|sx| |sx mx ex]; cbn; try contradiction.
  destruct a as [sa|sa| |sa ma ea]; cbn; try contradiction; auto.
Qed.

Lemma add_one_zero x : is_zero x -> F32.add F32.one x = F32.one.
Proof.
  destruct x as [sx|sx| |sx mx ex]; cbn; try contradiction. reflexivity.
Qed.

Lemma fold_left_fixed {A B} (f : B -> A -> B) (b : B) l :
  (forall x, In x l -> f b x = b) -> fold_left f l b = b.
Proof.
  induction l as [|x l IH]; cbn; intros H; [reflexivity|].
  rewrite H by (left; reflexivity). apply IH.
  intros y Hy. apply H. right. exact Hy.
Qed.

Lemma fold_fminimum_constant v n :
  fold_left np.fminimum (repeat v n) v = v.
Proof.
  apply fold_left_fixed. intros x Hx. apply repeat_spec in Hx. subst x.
  unfold np.fminimum. destruct (F32.leb v v || F32.is_nan v); reflexivity.
Qed.

Lemma fold_fmaximum_constant v n :
  fold_left np.fmaximum (repeat v n) v = v.
Proof.
  apply fold_left_fixed. intros x Hx. apply repeat_spec in Hx. subst x.
  unfold np.fmaximum. destruct (F32.leb v v || F32.is_nan v); reflexivity.
Qed.

(** X10.  When every weight is a zero and the activation holds finite
    numbers only, the products vanish and the bias alone remains: the
    accumulator is 1.0 everywhere, and normalising it gives NaN
    everywhere. *)
Theorem zero_weights_leave_the_bias weights target c h w :
  shape target = [c; h; w] -> well_shaped target ->
  length (data weights) = c ->
  Forall is_zero (data weights) ->
  Forall is_finite (data target) ->
  0 < h * w ->
  GradCam.cam_accumulate weights target = Ok (np.ones [h; w]) /\
  GradCam.cam_normalize (np.ones [h; w])
  = Ok (mk_ndarray [h; w] (repeat S754_nan (h * w))).
Proof.
  intros Hs Hw Hl Hz Hf Hpos. split.
  - destruct (cam_accumulate_spec target c h w Hs Hw weights)
      as (cam & Hr & Hcs & Hcl & Hv); [lia|].
    rewrite Hr. f_equal. destruct cam as [sh d]. cbn [shape data] in *.
    unfold np.ones. rewrite numel_2. subst sh. f_equal.
    apply (nth_ext _ _ S754_nan S754_nan);
      [now rewrite repeat_length|].
    intros k Hk0.
    assert (Hk : k < h * w) by (rewrite <- Hcl; exact Hk0).
    transitivity F32.one; [|symmetry; apply repeat_nth_lt; exact Hk].
    etransitivity; [exact (Hv k Hk)|].
    rewrite fold_left_fixed; [reflexivity|].
    intros ch Hch. apply in_seq in Hch. apply add_one_zero.
    apply mul_zero_finite.
    + rewrite Forall_forall in Hz. apply Hz, nth_In. lia.
    + rewrite Forall_forall in Hf. apply Hf, nth_In.
      unfold well_shaped in Hw. rewrite Hw, Hs, numel_3. nia.
  - unfold GradCam.cam_normalize, np.amin, np.amax, np.ones.
    rewrite numel_2. cbn [data].
    destruct (h * w) as [|n] eqn:E; [lia|]. cbn [repeat rbind].
    rewrite fold_fminimum_constant, fold_fmaximum_constant.
    unfold map_array. cbn [shape data]. f_equal. f_equal.
    change (F32.one :: repeat F32.one n) with (repeat F32.one (S n)).
    rewrite map_repeat. reflexivity.
Qed.

(** X10 on the activation of the specification's scenario with both
    weights at zero. *)
Lemma zero_weights_leave_the_bias_witness :
  GradCam.cam_accumulate (mk_ndarray [2] [F32.zero; F32.zero])
    activation_2_3_3 = Ok (np.ones [3; 3]) /\
  GradCam.cam_normalize (np.ones [3; 3])
  = Ok (mk_ndarray [3; 3] (repeat S754_nan (3 * 3))).
Proof.
  apply (zero_weights_leave_the_bias (mk_ndarray [2] [F32.zero; F32.zero])
           activation_2_3_3 2 3 3).
  - reflexivity.
  - reflexivity.
  - reflexivity.
  - repeat constructor.
  - repeat constructor.
  - lia.
Defined.

(* ------------------------------------------------------------------ *)
(** ** A target layer that does not give feature maps *)



